(** * SKU generator: cost cipher, alias resolution, identifier assembly,
      option canonicalisation, submission validation and history filter.

    Shallow embedding of the TypeScript sources
      - [utils/costEncoder]            (encodeCost, decodeCost),
      - [services/googleSheetsService] (transformData),
      - [SKUGeneratorForm]             (getAlias, generateSKU, isFormComplete,
                                        getMissingFields),
      - [pages/SKUHistory]             (the filter effect).

    JavaScript strings are modelled as [string]: a string of ASCII
    characters (codes below 128) is modelled exactly, with the case mapping
    and the white space of ASCII; characters of higher codes are carried
    along unchanged, where JavaScript follows Unicode. JavaScript numbers
    are binary64 values kept exactly, as a sign and a dyadic rational,
    besides NaN and the two infinities. A property read from an object
    literal is looked up among its own entries and then among the members
    of [Object.prototype]. *)

From Stdlib Require Import ZArith NArith List Ascii String Bool Lia.
From stdpp Require Import gmap strings.

Local Open Scope string_scope.

(* ===================================================================== *)
(** ** JavaScript strings *)
(* ===================================================================== *)

Module JSString.

(** A string is truthy when it is not empty. *)
Definition truthy (s : string) : bool :=
  match s with EmptyString => false | String _ _ => true end.

(** [a || b] on strings. *)
Definition or_else (a b : string) : string := if truthy a then a else b.

(** Truthiness and [a || b] where [a] may be [undefined]. *)
Definition opt_truthy (o : option string) : bool :=
  match o with Some s => truthy s | None => false end.

Definition opt_or (a : option string) (b : string) : string :=
  match a with
  | Some s => or_else s b
  | None => b
  end.

Definition lowerChar (c : ascii) : ascii :=
  let n := N_of_ascii c in
  if ((65 <=? n) && (n <=? 90))%N then ascii_of_N (n + 32) else c.

Definition upperChar (c : ascii) : ascii :=
  let n := N_of_ascii c in
  if ((97 <=? n) && (n <=? 122))%N then ascii_of_N (n - 32) else c.

Fixpoint map_chars (f : ascii -> ascii) (s : string) : string :=
  match s with
  | EmptyString => EmptyString
  | String c s' => String (f c) (map_chars f s')
  end.

(** [s.toLowerCase()] and [s.toUpperCase()], exact on ASCII strings: the
    letters A to Z and a to z are mapped, every other character is kept.
    (On characters outside ASCII JavaScript follows the Unicode case
    mappings, which may change the length of the string.) *)
Definition toLowerCase : string -> string := map_chars lowerChar.
Definition toUpperCase : string -> string := map_chars upperChar.

(** The strings on which the case mappings above are those of JavaScript. *)
Definition isASCII (s : string) : bool :=
  forallb (fun c => (N_of_ascii c <? 128)%N) (list_ascii_of_string s).

(** White space: TAB, LF, VT, FF, CR and SPACE. *)
Definition isWhiteSpace (c : ascii) : bool :=
  let n := N_of_ascii c in
  (((9 <=? n) && (n <=? 13)) || (n =? 32))%N.

Fixpoint trimStart (s : string) : string :=
  match s with
  | EmptyString => EmptyString
  | String c s' => if isWhiteSpace c then trimStart s' else s
  end.

Fixpoint trimEnd (s : string) : string :=
  match s with
  | EmptyString => EmptyString
  | String c s' =>
      match trimEnd s' with
      | EmptyString => if isWhiteSpace c then EmptyString else String c EmptyString
      | t => String c t
      end
  end.

Definition trim (s : string) : string := trimStart (trimEnd s).

(** [s.includes(sub)]. *)
Fixpoint includes (s sub : string) : bool :=
  if String.prefix sub s then true
  else match s with
       | EmptyString => false
       | String _ s' => includes s' sub
       end.

(** [parts.join(sep)]. *)
Definition join (sep : string) (parts : list string) : string :=
  String.concat sep parts.

Fixpoint repeat (c : ascii) (n : nat) : string :=
  match n with O => EmptyString | S n' => String c (repeat c n') end.

(** [s.padStart(targetLength, c)] for a one-character filler. *)
Definition padStart (targetLength : nat) (c : ascii) (s : string) : string :=
  repeat c (targetLength - String.length s) ++ s.

End JSString.

(* ===================================================================== *)
(** ** JavaScript objects *)
(* ===================================================================== *)

(** Property access on an object literal whose own properties hold
    strings. Such an object inherits from [Object.prototype], so a key it
    does not own may still give a value: [Object] under "constructor",
    [Object.prototype] itself under "__proto__", a method under its name. *)

Module JSObject.

Inductive value :=
| Str (s : string)
| ObjectConstructor
| ObjectPrototype
| Method (name : string).

(** The methods of [Object.prototype]. *)
Definition Object_prototype_methods : list string :=
  [ "__defineGetter__"; "__defineSetter__"; "__lookupGetter__";
    "__lookupSetter__"; "hasOwnProperty"; "isPrototypeOf";
    "propertyIsEnumerable"; "toLocaleString"; "toString"; "valueOf" ].

(** [Object.prototype[key]]; [None] is [undefined]. *)
Definition inherited (key : string) : option value :=
  if String.eqb key "constructor" then Some ObjectConstructor
  else if String.eqb key "__proto__" then Some ObjectPrototype
  else if existsb (String.eqb key) Object_prototype_methods then Some (Method key)
  else None.

(** [object[key]] for the object literal with the entries [own]. *)
Definition get (own : gmap string string) (key : string) : option value :=
  match own !! key with
  | Some s => Some (Str s)
  | None => inherited key
  end.

(** Objects and functions are truthy. *)
Definition truthy (v : value) : bool :=
  match v with
  | Str s => JSString.truthy s
  | _ => true
  end.

(** [a || b]. *)
Definition or_else (a b : value) : value := if truthy a then a else b.

(** The source text of a built-in function, as V8 prints it (the standard
    fixes the form [function name() { [native code] }] and leaves the white
    space to the engine). *)
Definition nativeSource (name : string) : string :=
  "function " ++ name ++ "() { [native code] }".

(** [String(v)], as a template literal and [Array.prototype.join] apply it. *)
Definition toString (v : value) : string :=
  match v with
  | Str s => s
  | ObjectConstructor => nativeSource "Object"
  | ObjectPrototype => "[object Object]"
  | Method name => nativeSource name
  end.

End JSObject.

(* ===================================================================== *)
(** ** JavaScript numbers *)
(* ===================================================================== *)

(** The built-ins the sources call ([parseFloat], [parseInt], [isNaN],
    [Math.round], [Number.prototype.toString]) on binary64 values, after
    the ECMAScript definitions. A finite value is kept exactly, as a sign
    and a dyadic rational; conversions round to nearest, ties to even. *)

Module JSNumber.

Local Open Scope N_scope.

(** [Finite neg num sh] is the binary64 value [(-1)^neg * num / 2^sh]. *)
Inductive number :=
| NaN
| Infinity (neg : bool)
| Finite (neg : bool) (num : N) (sh : N).

Definition isNaN (x : number) : bool :=
  match x with NaN => true | _ => false end.

(** The integer nearest to [a / b], ties to the even one ([b > 0]). *)
Definition div_nearest_even (a b : N) : N :=
  let q := a / b in
  match 2 * (a mod b) ?= b with
  | Lt => q
  | Gt => q + 1
  | Eq => if N.even q then q else q + 1
  end.

Fixpoint normalize_nat (sh : nat) (num : N) : N * N :=
  match sh with
  | O => (num, 0)
  | S sh' => if N.even num then normalize_nat sh' (num / 2)
             else (num, N.of_nat sh)
  end.

(** [num / 2^sh] with a denominator as small as possible. *)
Definition normalize (num sh : N) : N * N := normalize_nat (N.to_nat sh) num.

(** [floor (log2 (p / q))] for positive [p] and [q]. *)
Definition log2_ratio (p q : N) : Z :=
  let d := (Z.of_N (N.log2 p) - Z.of_N (N.log2 q))%Z in
  if (0 <=? d)%Z
  then if q * 2 ^ Z.to_N d <=? p then d else (d - 1)%Z
  else if q <=? p * 2 ^ Z.to_N (- d) then d else (d - 1)%Z.

(** The binary64 value nearest to [(-1)^neg * p / q] (round to nearest,
    ties to even; 53-bit significands, exponents from -1074 to 971). *)
Definition binary64 (neg : bool) (p q : N) : number :=
  if p =? 0 then Finite neg 0 0 else
  let e := Z.max (log2_ratio p q - 52) (-1074) in
  if (0 <=? e)%Z then
    let m := div_nearest_even p (q * 2 ^ Z.to_N e) in
    if ((971 <? e)%Z || ((e =? 971)%Z && (2 ^ 53 <=? m)))%bool
    then Infinity neg
    else Finite neg (m * 2 ^ Z.to_N e) 0
  else
    let m := div_nearest_even (p * 2 ^ Z.to_N (- e)) q in
    let '(n, s) := normalize m (Z.to_N (- e)) in
    Finite neg n s.

(** Unary minus. *)
Definition negate (x : number) : number :=
  match x with
  | NaN => NaN
  | Infinity neg => Infinity (negb neg)
  | Finite neg num sh => Finite (negb neg) num sh
  end.

(** [Number.MAX_VALUE] plus half a unit in its last place,
    [2^1024 - 2^970]. *)
Definition overflow_threshold : N := 2 ^ 1024 - 2 ^ 970.

(** A number literal or conversion from an integer. *)
Definition of_Z (z : Z) : number := binary64 (z <? 0)%Z (Z.abs_N z) 1.

(** [Math.round]: the nearest integer, ties towards +Infinity. *)
Definition Math_round (x : number) : number :=
  match x with
  | NaN => NaN
  | Infinity s => Infinity s
  | Finite false num sh => Finite false ((2 * num + 2 ^ sh) / 2 ^ (sh + 1)) 0
  | Finite true num sh => Finite true ((2 * num + 2 ^ sh - 1) / 2 ^ (sh + 1)) 0
  end.

(** *** Decimal digits *)

Definition digitChar (d : N) : ascii := ascii_of_N (48 + d).

Fixpoint digits_aux (fuel : nat) (n : N) (acc : list N) : list N :=
  match fuel with
  | O => acc
  | S f =>
      let acc' := (n mod 10) :: acc in
      if n <? 10 then acc' else digits_aux f (n / 10) acc'
  end.

(** The decimal digits of [n], most significant first, no leading zero. *)
Definition digits (n : N) : list N :=
  digits_aux (S (N.to_nat (N.log2 n))) n [].

Definition string_of_digits (ds : list N) : string :=
  string_of_list_ascii (map digitChar ds).

Definition decimal (n : N) : string := string_of_digits (digits n).

(** The number of decimal digits of [n]. *)
Definition ndigits (n : N) : nat := List.length (digits n).

(** The value of a digit sequence. *)
Definition digits_value (ds : list N) : N :=
  fold_left (fun acc d => 10 * acc + d) ds 0.

Definition isDigit (c : ascii) : bool :=
  let n := N_of_ascii c in (48 <=? n) && (n <=? 57).

Definition digitVal (c : ascii) : N := N_of_ascii c - 48.

(** The longest prefix of decimal digits, and what follows it. *)
Fixpoint span_digits (s : string) : list N * string :=
  match s with
  | EmptyString => ([], EmptyString)
  | String c s' =>
      if isDigit c
      then let '(ds, r) := span_digits s' in (digitVal c :: ds, r)
      else ([], s)
  end.

(** An optional sign, and what follows it. *)
Definition span_sign (s : string) : bool * string :=
  match s with
  | String "-" r => (true, r)
  | String "+" r => (false, r)
  | _ => (false, s)
  end.

(** *** [Number.prototype.toString] (radix 10) *)

(** Does [y] have the magnitude [num / 2^sh]? *)
Definition same_magnitude (num sh : N) (y : number) : bool :=
  match y with
  | Finite _ n s => num * 2 ^ s =? n * 2 ^ sh
  | _ => false
  end.

(** The binary64 value of [s * 10^j]. *)
Definition binary64_scaled (s : N) (j : Z) : number :=
  if (0 <=? j)%Z then binary64 false (s * 10 ^ Z.to_N j) 1
  else binary64 false s (10 ^ Z.to_N (- j)).

Fixpoint leading_zeros (fuel : nat) (a b : N) : nat :=
  match fuel with
  | O => O
  | S f => if b <=? a * 10 then O else S (leading_zeros f (a * 10) b)
  end.

(** The [n] with [10^(n-1) <= num / 2^sh < 10^n], for [num > 0]. *)
Definition decimal_exponent (num sh : N) : Z :=
  if 2 ^ sh <=? num then Z.of_nat (ndigits (num / 2 ^ sh))
  else (- Z.of_nat (leading_zeros (N.to_nat sh) num (2 ^ sh)))%Z.

(** The [k]-digit decimals [s * 10^(n-k)] next to [num / 2^sh]: the one
    that converts back to it, the closer one (the even one on a tie) when
    both do. *)
Definition candidate (num sh : N) (n : Z) (k : N) : option N :=
  let j := (n - Z.of_N k)%Z in
  let '(p, q) := if (0 <=? j)%Z then (num, 2 ^ sh * 10 ^ Z.to_N j)
                 else (num * 10 ^ Z.to_N (- j), 2 ^ sh) in
  let s1 := p / q in
  let s2 := s1 + 1 in
  let ok1 := same_magnitude num sh (binary64_scaled s1 j) in
  let ok2 := same_magnitude num sh (binary64_scaled s2 j) in
  match ok1, ok2 with
  | true, false => Some s1
  | false, true => Some s2
  | false, false => None
  | true, true =>
      match 2 * p ?= (2 * s1 + 1) * q with
      | Lt => Some s1
      | Gt => Some s2
      | Eq => if N.even s1 then Some s1 else Some s2
      end
  end.

(** The least [k] from [k] on, within [fuel] steps, with a candidate. *)
Fixpoint shortest (fuel : nat) (num sh : N) (n : Z) (k : N) : option (N * N) :=
  match fuel with
  | O => None
  | S f =>
      match candidate num sh n k with
      | Some s => Some (s, k)
      | None => shortest f num sh n (k + 1)
      end
  end.

Definition exponent_part (n : Z) : string :=
  String "e" (String (if (0 <=? n - 1)%Z then "+" else "-")%char
                (decimal (Z.abs_N (n - 1)))).

(** The text of the positive value [s * 10^(n-k)], [s] having [k] digits. *)
Definition format (ds : list N) (n : Z) : string :=
  let k := Z.of_nat (List.length ds) in
  if ((k <=? n) && (n <=? 21))%Z then
    string_of_digits ds ++ JSString.repeat "0" (Z.to_nat (n - k))
  else if ((0 <? n) && (n <=? 21))%Z then
    string_of_digits (firstn (Z.to_nat n) ds) ++ "." ++
    string_of_digits (skipn (Z.to_nat n) ds)
  else if ((-6 <? n) && (n <=? 0))%Z then
    "0." ++ JSString.repeat "0" (Z.to_nat (- n)) ++ string_of_digits ds
  else
    match ds with
    | [d] => string_of_digits [d] ++ exponent_part n
    | d :: ds' => string_of_digits [d] ++ "." ++ string_of_digits ds'
                  ++ exponent_part n
    | [] => EmptyString
    end.

(** The decimal text with the fewest digits that converts back to [x]
    (a binary64 value always has one of at most 17 digits; the other digits
    are taken for the dyadic values that are not binary64 values), laid
    out plainly up to 21 integer digits and in exponent notation beyond. *)
Definition Number_toString (x : number) : string :=
  match x with
  | NaN => "NaN"
  | Infinity false => "Infinity"
  | Infinity true => "-Infinity"
  | Finite neg num sh =>
      if num =? 0 then "0" else
      let n := decimal_exponent num sh in
      let '(s, k) :=
        match shortest 17 num sh n 1 with
        | Some r => r
        | None => (num * 10 ^ Z.to_N (17 - n) / 2 ^ sh, 17)
        end in
      let '(s, n) := if s =? 10 ^ k then (s / 10, (n + 1)%Z) else (s, n) in
      (if neg then "-" else "") ++ format (digits s) n
  end.

(** *** [parseFloat] and [parseInt] *)

(** [parseFloat]: leading white space is skipped, then the longest prefix
    that is a signed decimal literal is converted; NaN when there is none. *)
Definition parseFloat (s : string) : number :=
  let '(neg, t) := span_sign (JSString.trimStart s) in
  if String.prefix "Infinity" t then Infinity neg else
  let '(ip, r1) := span_digits t in
  let '(fp, r2) := match r1 with
                   | String "." r => span_digits r
                   | _ => ([], r1)
                   end in
  match (ip ++ fp)%list with
  | [] => NaN
  | ds =>
      let ex : Z :=
        match r2 with
        | String c r3 =>
            if (Ascii.eqb c "e" || Ascii.eqb c "E")%bool then
              let '(eneg, r4) := span_sign r3 in
              match fst (span_digits r4) with
              | [] => 0%Z
              | es => if eneg then (- Z.of_N (digits_value es))%Z
                      else Z.of_N (digits_value es)
              end
            else 0%Z
        | EmptyString => 0%Z
        end in
      let e := (ex - Z.of_nat (List.length fp))%Z in
      if (0 <=? e)%Z then binary64 neg (digits_value ds * 10 ^ Z.to_N e) 1
      else binary64 neg (digits_value ds) (10 ^ Z.to_N (- e))
  end.

(** [parseInt(s, 10)]. *)
Definition parseInt10 (s : string) : number :=
  let '(neg, t) := span_sign (JSString.trimStart s) in
  match fst (span_digits t) with
  | [] => NaN
  | ds => binary64 neg (digits_value ds) 1
  end.

(** *** Arithmetic and comparison *)

(** The numerator of a finite value, with its sign. *)
Definition signed (neg : bool) (n : N) : Z :=
  if neg then (- Z.of_N n)%Z else Z.of_N n.

(** [x < y]; false as soon as one side is NaN. *)
Definition lt (x y : number) : bool :=
  match x, y with
  | NaN, _ | _, NaN => false
  | Infinity a, Infinity b => a && negb b
  | Infinity a, Finite _ _ _ => a
  | Finite _ _ _, Infinity b => negb b
  | Finite s1 n1 h1, Finite s2 n2 h2 =>
      (signed s1 (n1 * 2 ^ h2) <? signed s2 (n2 * 2 ^ h1))%Z
  end.

(** [x <= y]; false as soon as one side is NaN. *)
Definition le (x y : number) : bool :=
  match x, y with
  | NaN, _ | _, NaN => false
  | Infinity a, Infinity b => a || negb b
  | Infinity a, Finite _ _ _ => a
  | Finite _ _ _, Infinity b => negb b
  | Finite s1 n1 h1, Finite s2 n2 h2 =>
      (signed s1 (n1 * 2 ^ h2) <=? signed s2 (n2 * 2 ^ h1))%Z
  end.

(** [x >= y]. *)
Definition ge (x y : number) : bool := le y x.

(** [x + y]: the exact sum, rounded; an exact zero from opposite signs is
    [+0]. *)
Definition add (x y : number) : number :=
  match x, y with
  | NaN, _ | _, NaN => NaN
  | Infinity a, Infinity b => if Bool.eqb a b then Infinity a else NaN
  | Infinity a, Finite _ _ _ => Infinity a
  | Finite _ _ _, Infinity b => Infinity b
  | Finite s1 n1 h1, Finite s2 n2 h2 =>
      let a := n1 * 2 ^ h2 in
      let b := n2 * 2 ^ h1 in
      let q := 2 ^ (h1 + h2) in
      if Bool.eqb s1 s2 then binary64 s1 (a + b) q
      else if a =? b then Finite false 0 0
      else if b <? a then binary64 s1 (a - b) q
      else binary64 s2 (b - a) q
  end.

(** A number is falsy when it is NaN or a zero. *)
Definition falsy (x : number) : bool :=
  match x with
  | NaN => true
  | Infinity _ => false
  | Finite _ num _ => num =? 0
  end.

(** [x || y] on numbers. *)
Definition number_or (x y : number) : number := if falsy x then y else x.

(** *** [parseInt] without a radix *)

Definition isHexDigit (c : ascii) : bool :=
  let n := N_of_ascii c in
  ((48 <=? n) && (n <=? 57)) || ((65 <=? n) && (n <=? 70))
  || ((97 <=? n) && (n <=? 102)).

Definition hexVal (c : ascii) : N :=
  let n := N_of_ascii c in
  if n <=? 57 then n - 48 else if n <=? 70 then n - 55 else n - 87.

(** The longest prefix of hexadecimal digits, and what follows it. *)
Fixpoint span_hex (s : string) : list N * string :=
  match s with
  | EmptyString => ([], EmptyString)
  | String c s' =>
      if isHexDigit c
      then let '(ds, r) := span_hex s' in (hexVal c :: ds, r)
      else ([], s)
  end.

Definition hex_value (ds : list N) : N :=
  fold_left (fun acc d => 16 * acc + d) ds 0.

(** [parseInt(s)]: radix 16 after a "0x" or "0X" prefix, radix 10
    otherwise. *)
Definition parseInt (s : string) : number :=
  let '(neg, t) := span_sign (JSString.trimStart s) in
  let decimal_digits :=
    match fst (span_digits t) with
    | [] => NaN
    | ds => binary64 neg (digits_value ds) 1
    end in
  match t with
  | String "0" (String x r) =>
      if (Ascii.eqb x "x" || Ascii.eqb x "X")%bool then
        match fst (span_hex r) with
        | [] => NaN
        | hs => binary64 neg (hex_value hs) 1
        end
      else decimal_digits
  | _ => decimal_digits
  end.

End JSNumber.

(* ===================================================================== *)
(** ** utils/costEncoder: the CRAZY WOMAN cipher *)
(* ===================================================================== *)

Module CostEncoder.

Import JSNumber.

Definition CRAZY_WOMAN_MAP : gmap string string :=
  list_to_map
    [ ("0", "C"); ("1", "R"); ("2", "A"); ("3", "Z"); ("4", "Y");
      ("5", "W"); ("6", "O"); ("7", "M"); ("8", "A"); ("9", "N") ].

(** [table[key] || dflt], for a key of one character: the table's own
    entries decide, no member of [Object.prototype] having so short a
    name. *)
Definition lookup_or (table : gmap string string) (key : ascii)
    (dflt : string) : string :=
  match table !! String key EmptyString with
  | Some v => JSString.or_else v dflt
  | None => dflt
  end.

(** [typeof cost === 'string' ? parseFloat(cost) : cost]. *)
Definition numericCost (cost : string + number) : number :=
  match cost with
  | inl s => parseFloat s
  | inr n => n
  end.

Definition encodeCost (cost : string + number) : string :=
  let numericCost := numericCost cost in
  if isNaN numericCost then "---" else
  let roundedCost := Math_round numericCost in
  let costString := Number_toString roundedCost in
  fold_left (fun encoded digit => encoded ++ lookup_or CRAZY_WOMAN_MAP digit "")
            (list_ascii_of_string costString) "".

(** The cipher letter of a digit, as the documentation lists them. *)
Definition letter (d : N) : ascii :=
  match d with
  | 0 => "C" | 1 => "R" | 2 => "A" | 3 => "Z" | 4 => "Y"
  | 5 => "W" | 6 => "O" | 7 => "M" | 8 => "A" | _ => "N"
  end%N%char.

Definition reverseMap : gmap string string :=
  list_to_map
    [ ("C", "0"); ("R", "1"); ("A", "2"); ("Z", "3"); ("Y", "4");
      ("W", "5"); ("O", "6"); ("M", "7"); ("N", "9") ].

Definition decodeCost (encoded : string) : number :=
  let decoded :=
    fold_left (fun decoded char => decoded ++ lookup_or reverseMap char "0")
              (list_ascii_of_string (JSString.toUpperCase encoded)) "" in
  parseInt10 decoded.

(** *** The contract, in the words of the specification *)

(** One cipher letter per decimal digit of [n]. *)
Definition letters_of (n : N) : string :=
  string_of_list_ascii (List.map letter (digits n)).

(** The inverse table: C→0, R→1, A→2, Z→3, Y→4, W→5, O→6, M→7, N→9,
    any other character 0. *)
Definition decode_char (c : ascii) : N :=
  match c with
  | "C" => 0 | "R" => 1 | "A" => 2 | "Z" => 3 | "Y" => 4
  | "W" => 5 | "O" => 6 | "M" => 7 | "N" => 9 | _ => 0
  end%N%char.

(** The letters of the cipher. *)
Definition cipher_letters : list ascii :=
  [ "C"; "R"; "A"; "Z"; "Y"; "W"; "O"; "M"; "N" ]%char.

Definition is_cipher_letter (c : ascii) : bool :=
  existsb (Ascii.eqb c) cipher_letters.

(** The digit that comes back from the letter of [d]: 8 shares its letter
    with 2. *)
Definition decoded_digit (d : N) : N := if (d =? 8)%N then 2%N else d.

End CostEncoder.

(* ===================================================================== *)
(** ** services/googleSheetsService: option canonicalisation *)
(* ===================================================================== *)

Module GoogleSheetsService.

Record DropdownOption := {
  value : string;
  label : string;
  alias : option string;           (* alias?: string *)
}.

Record DropdownData := {
  productGroups : list DropdownOption;
  productCategories : list DropdownOption;
  colors : list DropdownOption;
  sizes : list DropdownOption;
  locations : list DropdownOption;
  fabrics : list DropdownOption;
  natures : list DropdownOption;
  vendorCodes : list DropdownOption;
}.

(** An entry of the payload: a string, an object whose [value], [label]
    and [alias] properties are strings or absent, or anything else. *)
Inductive RawItem :=
| RawString (s : string)
| RawObject (value label alias : option string)
| RawOther.

(** The payload of one category: an array of entries, or not an array. *)
Inductive RawItems :=
| NotArray
| Items (items : list RawItem).

Definition transformItem (item : RawItem) : DropdownOption :=
  match item with
  | RawString s => {| value := s; label := s; alias := None |}
  | RawObject v l a =>
      {| value := JSString.opt_or v (JSString.opt_or l "");
         label := JSString.opt_or l (JSString.opt_or v "");
         alias := a |}
  | RawOther => {| value := ""; label := ""; alias := None |}
  end.

Definition transformData (items : RawItems) : list DropdownOption :=
  match items with
  | NotArray => []
  | Items items =>
      List.filter (fun item => negb (String.eqb (value item) ""))
                  (List.map transformItem items)
  end.

(** A canonical option seen again as a payload entry. *)
Definition as_raw (o : DropdownOption) : RawItem :=
  RawObject (Some (value o)) (Some (label o)) (alias o).

End GoogleSheetsService.

(* ===================================================================== *)
(** ** SKUGeneratorForm: alias resolution, assembly, validation *)
(* ===================================================================== *)

Module SKUGeneratorForm.

Import GoogleSheetsService.

Record FormData := {
  productGroup : string;
  productCategory : string;
  color : string;
  size : string;
  style : string;
  location : string;
  fabric : string;
  nature : string;
  vendorCode : string;
  cost : string;
}.

(** [keyof typeof dropdownData]. *)
Inductive Field :=
| ProductGroups | ProductCategories | Colors | Sizes
| Locations | Fabrics | Natures | VendorCodes.

Definition field_name (field : Field) : string :=
  match field with
  | ProductGroups => "productGroups"
  | ProductCategories => "productCategories"
  | Colors => "colors"
  | Sizes => "sizes"
  | Locations => "locations"
  | Fabrics => "fabrics"
  | Natures => "natures"
  | VendorCodes => "vendorCodes"
  end.

(** [dropdownData[field]]. *)
Definition options_of (dropdownData : DropdownData) (field : Field)
    : list DropdownOption :=
  match field with
  | ProductGroups => productGroups dropdownData
  | ProductCategories => productCategories dropdownData
  | Colors => colors dropdownData
  | Sizes => sizes dropdownData
  | Locations => locations dropdownData
  | Fabrics => fabrics dropdownData
  | Natures => natures dropdownData
  | VendorCodes => vendorCodes dropdownData
  end.

(** The initial state: no option loaded in any category. *)
Definition noDropdownData : DropdownData :=
  {| productGroups := []; productCategories := []; colors := [];
     sizes := []; locations := []; fabrics := []; natures := [];
     vendorCodes := [] |}.

(** The table: the own entries of the object literal and of the three
    objects nested in it. *)
Definition HARDCODED_ALIASES : gmap string (gmap string string) :=
  list_to_map
    [ ("productGroups",
        list_to_map [ ("kurtaset", "KT"); ("kurta set", "KT"); ("kurta", "KU") ]);
      ("natures",
        list_to_map [ ("printed", "PR"); ("solid", "SL"); ("embroidery", "EM") ]);
      ("colors",
        list_to_map [ ("black", "BK"); ("white", "WH"); ("red", "RD");
                      ("blue", "BL"); ("green", "GR"); ("yellow", "YL");
                      ("pink", "PK") ]) ].

Definition normalize (s : string) : string :=
  JSString.toLowerCase (JSString.trim s).

(** The predicate given to [options.find]. *)
Definition matches (normalizedValue : string) (opt : DropdownOption) : bool :=
  String.eqb (normalize (JSString.or_else (GoogleSheetsService.value opt) ""))
             normalizedValue
  || String.eqb (normalize (JSString.or_else (label opt) "")) normalizedValue.

(** [HARDCODED_ALIASES[field][normalizedValue]], looked up only when
    [field in HARDCODED_ALIASES] (none of the eight field names is a member
    of [Object.prototype], so [in] is decided by the own entries). The inner
    lookup is a property access on an object literal: a key the category's
    table does not own is looked up in [Object.prototype]. *)
Definition hardcodedAlias (field : Field) (normalizedValue : string)
    : option JSObject.value :=
  HARDCODED_ALIASES !! field_name field
    ≫= (fun table => JSObject.get table normalizedValue).

(** [option?.alias], with [undefined] as [None]. *)
Definition aliasOf (found : option DropdownOption) : option string :=
  found ≫= alias.

(** The result is declared a string; when the table lookup reaches
    [Object.prototype] it is the inherited member. *)
Definition getAlias (dropdownData : DropdownData) (field : Field)
    (value : string) : JSObject.value :=
  if negb (JSString.truthy value) then JSObject.Str "" else
  (* 1. dropdown data, by value or label *)
  let options := options_of dropdownData field in
  let normalizedValue := normalize value in
  (* do we have data *)
  if Nat.eqb (List.length options) 0 then JSObject.Str value else
  let option := List.find (matches normalizedValue) options in
  if JSString.opt_truthy (aliasOf option)
  then JSObject.Str (JSString.opt_or (aliasOf option) "") else
  (* 2. hardcoded aliases *)
  match hardcodedAlias field normalizedValue with
  | Some hardcoded =>
      if JSObject.truthy hardcoded then hardcoded
      else (* 3. the original value *) JSObject.Str value
  | None => JSObject.Str value
  end.

(** [generateSKU] of the form built on [Select] inputs. *)
Definition generateSKU (dropdownData : DropdownData) (formData : FormData)
    : string :=
  let encodedCost :=
    if JSString.truthy (cost formData)
    then CostEncoder.encodeCost (inl (cost formData)) else "----" in
  let productCategoryAlias := getAlias dropdownData ProductCategories (productCategory formData) in
  let productGroupAlias := getAlias dropdownData ProductGroups (productGroup formData) in
  let colorAlias := getAlias dropdownData Colors (color formData) in
  let fabricAlias := getAlias dropdownData Fabrics (fabric formData) in
  let natureAlias := getAlias dropdownData Natures (nature formData) in
  let locationAlias := getAlias dropdownData Locations (location formData) in
  let firstPart :=
    if JSObject.truthy productCategoryAlias && JSObject.truthy productGroupAlias
    then JSObject.toString productCategoryAlias ++ JSObject.toString productGroupAlias
    else JSString.or_else (productGroup formData) "---" in
  let parts :=
    [ JSObject.Str firstPart;
      JSObject.or_else colorAlias
        (JSObject.Str (JSString.or_else (color formData) "---"));
      JSObject.Str (JSString.or_else (size formData) "--");
      JSObject.Str (JSString.or_else (style formData) "---");
      JSObject.or_else locationAlias
        (JSObject.Str (JSString.or_else (location formData) "---"));
      JSObject.or_else fabricAlias
        (JSObject.Str (JSString.or_else (fabric formData) "---"));
      JSObject.or_else natureAlias
        (JSObject.Str (JSString.or_else (nature formData) "---"));
      JSObject.Str (JSString.or_else (vendorCode formData) "------");
      JSObject.Str encodedCost ] in
  JSString.join "-" (List.map JSObject.toString parts).

(** [generateSKU] of the form built on [Combobox] inputs: the location
    part is listed twice and the vendor code goes through [getAlias]. *)
Definition generateSKU_combobox (dropdownData : DropdownData)
    (formData : FormData) : string :=
  let encodedCost :=
    if JSString.truthy (cost formData)
    then CostEncoder.encodeCost (inl (cost formData)) else "----" in
  let productCategoryAlias := getAlias dropdownData ProductCategories (productCategory formData) in
  let productGroupAlias := getAlias dropdownData ProductGroups (productGroup formData) in
  let colorAlias := getAlias dropdownData Colors (color formData) in
  let fabricAlias := getAlias dropdownData Fabrics (fabric formData) in
  let natureAlias := getAlias dropdownData Natures (nature formData) in
  let locationAlias := getAlias dropdownData Locations (location formData) in
  let firstPart :=
    if JSObject.truthy productCategoryAlias && JSObject.truthy productGroupAlias
    then JSObject.toString productCategoryAlias ++ JSObject.toString productGroupAlias
    else JSString.or_else (productGroup formData) "---" in
  let parts :=
    [ JSObject.Str firstPart;
      JSObject.or_else colorAlias
        (JSObject.Str (JSString.or_else (color formData) "---"));
      JSObject.Str (JSString.or_else (size formData) "--");
      JSObject.Str (JSString.or_else (style formData) "---");
      JSObject.or_else locationAlias
        (JSObject.Str (JSString.or_else (location formData) "---"));
      JSObject.or_else locationAlias
        (JSObject.Str (JSString.or_else (location formData) "---"));
      JSObject.or_else fabricAlias
        (JSObject.Str (JSString.or_else (fabric formData) "---"));
      JSObject.or_else natureAlias
        (JSObject.Str (JSString.or_else (nature formData) "---"));
      JSObject.or_else (getAlias dropdownData VendorCodes (vendorCode formData))
        (JSObject.Str (JSString.or_else (vendorCode formData) "------"));
      JSObject.Str encodedCost ] in
  JSString.join "-" (List.map JSObject.toString parts).

(** [a && b] on strings: [a] when it is falsy, else [b]. *)
Definition and_then (a b : string) : string :=
  if JSString.truthy a then b else a.

(** The [&&] chain yields a string, used for its truth value. *)
Definition isFormComplete (formData : FormData) : string :=
  and_then (productGroup formData)
 (and_then (productCategory formData)
 (and_then (color formData)
 (and_then (size formData)
 (and_then (style formData)
 (and_then (location formData)
 (and_then (fabric formData)
 (and_then (nature formData)
 (and_then (vendorCode formData)
           (cost formData))))))))).

(** [if (!field) missing.push(name)]. *)
Definition push_if_missing (field name : string) (missing : list string)
    : list string :=
  if negb (JSString.truthy field) then (missing ++ [name])%list else missing.

Definition getMissingFields (formData : FormData) : list string :=
  let missing := [] in
  let missing := push_if_missing (productGroup formData) "Product Group" missing in
  let missing := push_if_missing (productCategory formData) "Product Category" missing in
  let missing := push_if_missing (color formData) "Color" missing in
  let missing := push_if_missing (size formData) "Size" missing in
  let missing := push_if_missing (style formData) "Style Number" missing in
  let missing := push_if_missing (location formData) "Location" missing in
  let missing := push_if_missing (fabric formData) "Fabric" missing in
  let missing := push_if_missing (nature formData) "Nature" missing in
  let missing := push_if_missing (vendorCode formData) "Vendor Code" missing in
  let missing := push_if_missing (cost formData) "Cost" missing in
  missing.

(** *** The contracts, in the words of the specification *)

(** The ten required fields in their fixed order, each with the name
    shown to the user. *)
Definition required_fields (formData : FormData) : list (string * string) :=
  [ (productGroup formData, "Product Group");
    (productCategory formData, "Product Category");
    (color formData, "Color");
    (size formData, "Size");
    (style formData, "Style Number");
    (location formData, "Location");
    (fabric formData, "Fabric");
    (nature formData, "Nature");
    (vendorCode formData, "Vendor Code");
    (cost formData, "Cost") ].

(** "x-or-placeholder". *)
Definition or_placeholder (x placeholder : string) : string :=
  if String.eqb x "" then placeholder else x.

(** "alias-or-raw-or-placeholder". *)
Definition alias_or_raw_or (alias raw placeholder : string) : string :=
  or_placeholder alias (or_placeholder raw placeholder).

(** The first token: both aliases concatenated when both are non-empty,
    else the raw product group, else the placeholder. *)
Definition first_token (categoryAlias groupAlias rawGroup : string) : string :=
  if String.eqb categoryAlias "" then or_placeholder rawGroup "---"
  else if String.eqb groupAlias "" then or_placeholder rawGroup "---"
  else categoryAlias ++ groupAlias.

(** The option of the testable properties. *)
Definition kurtaSetOption : DropdownOption :=
  {| value := "kurta-set"; label := "Kurta Set"; alias := Some "KT" |}.

(** The static fallback table, entry by entry. *)
Definition fallback_spec (field : Field) (normalized : string) : option string :=
  let entry (key code : string) (otherwise : option string) :=
    if String.eqb normalized key then Some code else otherwise in
  match field with
  | ProductGroups =>
      entry "kurtaset" "KT" (entry "kurta set" "KT" (entry "kurta" "KU" None))
  | Natures =>
      entry "printed" "PR" (entry "solid" "SL" (entry "embroidery" "EM" None))
  | Colors =>
      entry "black" "BK" (entry "white" "WH" (entry "red" "RD"
        (entry "blue" "BL" (entry "green" "GR" (entry "yellow" "YL"
          (entry "pink" "PK" None))))))
  | _ => None
  end.



(** *** The style number counter *)

(** [getNextStyleNumber], over the contents of [localStorage]: the style
    number handed out, and the storage afterwards. *)
Definition getNextStyleNumber (localStorage : gmap string string)
    : string * gmap string string :=
  let lastStyle := localStorage !! "lastStyleNumber" in
  let nextNumber :=
    if JSString.opt_truthy lastStyle
    then JSNumber.add (JSNumber.parseInt (JSString.opt_or lastStyle ""))
                      (JSNumber.of_Z 1)
    else JSNumber.of_Z 100 in
  (* start at 100 when the stored number is lower *)
  let nextNumber :=
    if JSNumber.lt nextNumber (JSNumber.of_Z 100) then JSNumber.of_Z 100
    else nextNumber in
  let localStorage :=
    <["lastStyleNumber" := JSNumber.Number_toString nextNumber]> localStorage in
  (JSString.padStart 3 "0" (JSNumber.Number_toString nextNumber), localStorage).

End SKUGeneratorForm.

(* ===================================================================== *)
(** ** pages/SKUHistory: the filter effect *)
(* ===================================================================== *)

Module SKUHistory.

(** A fetched record; a property that is missing, [undefined] or [null]
    is [None]. *)
Module Submission.
Record t := {
  timestamp : option string;
  createdBy : option string;
  sku : option string;
  productGroup : option string;
  productCategory : option string;
  color : option string;
  size : option string;
  style : option string;
  location : option string;
  fabric : option string;
  nature : option string;
  vendorCode : option string;
  cost : option string;
}.
End Submission.

(** The [filters] state. *)
Module Filters.
Record t := {
  sku : string;
  productGroup : string;
  productCategory : string;
  color : string;
  size : string;
  style : string;
  location : string;
  fabric : string;
  nature : string;
  vendorCode : string;
  cost : string;
  createdBy : string;
}.
End Filters.

(** The initial [filters]: every column filter empty. *)
Definition initialFilters : Filters.t :=
  {| Filters.sku := ""; Filters.productGroup := ""; Filters.productCategory := "";
     Filters.color := ""; Filters.size := ""; Filters.style := "";
     Filters.location := ""; Filters.fabric := ""; Filters.nature := "";
     Filters.vendorCode := ""; Filters.cost := ""; Filters.createdBy := "" |}.

(** [field?.toLowerCase() || '']. *)
Definition lowerOrEmpty (field : option string) : string :=
  JSString.opt_or (JSString.toLowerCase <$> field) "".

(** The helper of the column filters. *)
Definition check (val : option string) (filter : string) : bool :=
  if negb (JSString.truthy filter) then true
  else JSString.includes (JSString.toLowerCase (JSString.opt_or val ""))
                         (JSString.toLowerCase filter).

Definition globalSearch (query : string) (sub : Submission.t) : bool :=
  JSString.includes (lowerOrEmpty (Submission.sku sub)) query
  || JSString.includes (lowerOrEmpty (Submission.productGroup sub)) query
  || JSString.includes (lowerOrEmpty (Submission.productCategory sub)) query
  || JSString.includes (lowerOrEmpty (Submission.color sub)) query.

Definition columnFilters (filters : Filters.t) (sub : Submission.t) : bool :=
  check (Submission.sku sub) (Filters.sku filters)
  && check (Submission.productGroup sub) (Filters.productGroup filters)
  && check (Submission.productCategory sub) (Filters.productCategory filters)
  && check (Submission.color sub) (Filters.color filters)
  && check (Submission.size sub) (Filters.size filters)
  && check (Submission.style sub) (Filters.style filters)
  && check (Submission.location sub) (Filters.location filters)
  && check (Submission.fabric sub) (Filters.fabric filters)
  && check (Submission.nature sub) (Filters.nature filters)
  && check (Submission.vendorCode sub) (Filters.vendorCode filters)
  && check (Submission.cost sub) (Filters.cost filters)
  && check (Submission.createdBy sub) (Filters.createdBy filters).

(** The value handed to [setFilteredSubmissions]. *)
Definition filteredSubmissions (submissions : list Submission.t)
    (searchQuery : string) (filters : Filters.t) : list Submission.t :=
  let result := submissions in
  (* 1. global search *)
  let result :=
    if negb (String.eqb (JSString.trim searchQuery) "") then
      let query := JSString.toLowerCase searchQuery in
      List.filter (globalSearch query) result
    else result in
  (* 2. column filters *)
  let result := List.filter (columnFilters filters) result in
  result.

(** *** The contract, in the words of the specification *)





End SKUHistory.

(* ===================================================================== *)
(** ** pages/Dashboard: the cost range filter and the total value *)
(* ===================================================================== *)

Module Dashboard.

Import JSNumber SKUHistory.

(** [parseFloat(item.cost)]; a missing cost is converted to the string
    "undefined" first. *)
Definition costOf (item : Submission.t) : number :=
  parseFloat (default "undefined" (Submission.cost item)).

(** The predicate given to [submissions.filter]. *)
Definition inRange (minCost maxCost : string) (item : Submission.t) : bool :=
  let cost := costOf item in
  if isNaN cost then false else
  let min := if JSString.truthy minCost then parseFloat minCost else Infinity true in
  let max := if JSString.truthy maxCost then parseFloat maxCost else Infinity false in
  ge cost min && le cost max.

Definition filteredData (submissions : list Submission.t)
    (minCost maxCost : string) : list Submission.t :=
  List.filter (inRange minCost maxCost) submissions.

(** [filteredData.reduce((acc, curr) => acc + (parseFloat(curr.cost) || 0), 0)]. *)
Definition totalValue (filteredData : list Submission.t) : number :=
  fold_left (fun acc curr => add acc (number_or (costOf curr) (of_Z 0)))
            filteredData (of_Z 0).

(** A record of which only the cost is known. *)
Definition costOnly (cost : option string) : Submission.t :=
  {| Submission.timestamp := None; Submission.createdBy := None;
     Submission.sku := None; Submission.productGroup := None;
     Submission.productCategory := None; Submission.color := None;
     Submission.size := None; Submission.style := None;
     Submission.location := None; Submission.fabric := None;
     Submission.nature := None; Submission.vendorCode := None;
     Submission.cost := cost |}.

(** The text of a bound typed as a whole number; no text for no bound. *)
Definition bound_text (bound : option N) : string :=
  match bound with
  | Some n => decimal n
  | None => ""
  end.

End Dashboard.

(* ===================================================================== *)
(** ** SKUGeneratorForm on Combobox inputs: submission *)
(* ===================================================================== *)

Module ComboboxForm.

Import GoogleSheetsService SKUGeneratorForm SKUHistory.

(** The user of the session, as [getCurrentUser] returns it. *)
Record User := {
  username : string;
  name : string;
  role : string;
}.

(** How the promise of [submitSKU] settles: resolved, or rejected with an
    [Error] carrying a message, or with something else. *)
Inductive Settled :=
| Resolved
| RejectedError (message : string)
| RejectedOther.

(** The state of the component with [localStorage], and what the handler
    has emitted: the [toast.error] messages and the calls of [submitSKU],
    latest last. *)
Record State := {
  formData : FormData;
  hasTriedSubmit : bool;
  isSubmitting : bool;
  showSuccessModal : bool;
  generatedSKU : string;
  localStorage : gmap string string;
  toasts : list string;
  submitted : list (Submission.t * string);
}.

(** [keyof FormData]. *)
Inductive FormKey :=
| productGroupKey | productCategoryKey | colorKey | sizeKey | styleKey
| locationKey | fabricKey | natureKey | vendorCodeKey | costKey.

(** [formData[field]]. *)
Definition field_of (formData : FormData) (field : FormKey) : string :=
  match field with
  | productGroupKey => productGroup formData
  | productCategoryKey => productCategory formData
  | colorKey => color formData
  | sizeKey => size formData
  | styleKey => style formData
  | locationKey => location formData
  | fabricKey => fabric formData
  | natureKey => nature formData
  | vendorCodeKey => vendorCode formData
  | costKey => cost formData
  end.

Definition getErrorClass (hasTriedSubmit : bool) (formData : FormData)
    (field : FormKey) : string :=
  if hasTriedSubmit && negb (JSString.truthy (field_of formData field))
  then "border-red-500 ring-1 ring-red-500" else "".

(** The name [getMissingFields] gives to a field. *)
Definition field_label (field : FormKey) : string :=
  match field with
  | productGroupKey => "Product Group"
  | productCategoryKey => "Product Category"
  | colorKey => "Color"
  | sizeKey => "Size"
  | styleKey => "Style Number"
  | locationKey => "Location"
  | fabricKey => "Fabric"
  | natureKey => "Nature"
  | vendorCodeKey => "Vendor Code"
  | costKey => "Cost"
  end.

(** A record handed to [submitSKU] in which the identifier is present and
    none of the ten fields is empty. *)
Definition filled (record : Submission.t) : Prop :=
  is_Some (Submission.sku record)
  /\ Forall (fun field => exists v : string, field = Some v /\ v <> "")
       [ Submission.productGroup record; Submission.productCategory record;
         Submission.color record; Submission.size record;
         Submission.style record; Submission.location record;
         Submission.fabric record; Submission.nature record;
         Submission.vendorCode record; Submission.cost record ].

(** The record handed to [submitSKU]. *)
Definition payload (sku : string) (formData : FormData) : Submission.t :=
  {| Submission.timestamp := None;
     Submission.createdBy := None;
     Submission.sku := Some sku;
     Submission.productGroup := Some (productGroup formData);
     Submission.productCategory := Some (productCategory formData);
     Submission.color := Some (color formData);
     Submission.size := Some (size formData);
     Submission.style := Some (style formData);
     Submission.location := Some (location formData);
     Submission.fabric := Some (fabric formData);
     Submission.nature := Some (nature formData);
     Submission.vendorCode := Some (vendorCode formData);
     Submission.cost := Some (cost formData) |}.

(** [handleSubmit], run to its end: [currentUser] is what [getCurrentUser]
    returns and [settled] how the promise of [submitSKU] settles. *)
Definition handleSubmit (dropdownData : DropdownData)
    (currentUser : option User) (settled : Settled) (st : State) : State :=
  let st :=
    {| formData := formData st; hasTriedSubmit := true;
       isSubmitting := isSubmitting st; showSuccessModal := showSuccessModal st;
       generatedSKU := generatedSKU st; localStorage := localStorage st;
       toasts := toasts st; submitted := submitted st |} in
  if negb (JSString.truthy (isFormComplete (formData st))) then st else
  match currentUser with
  | None =>
      {| formData := formData st; hasTriedSubmit := hasTriedSubmit st;
         isSubmitting := isSubmitting st; showSuccessModal := showSuccessModal st;
         generatedSKU := generatedSKU st; localStorage := localStorage st;
         toasts := (toasts st ++ ["Please login first"])%list;
         submitted := submitted st |}
  | Some currentUser =>
      let sku := generateSKU_combobox dropdownData (formData st) in
      let submitted :=
        (submitted st ++ [(payload sku (formData st), username currentUser)])%list in
      match settled with
      | Resolved =>
          let '(nextStyle, localStorage) := getNextStyleNumber (localStorage st) in
          {| formData :=
               {| productGroup := ""; productCategory := ""; color := "";
                  size := ""; style := nextStyle; location := ""; fabric := "";
                  nature := ""; vendorCode := ""; cost := "" |};
             hasTriedSubmit := false;
             isSubmitting := false;
             showSuccessModal := true;
             generatedSKU := sku;
             localStorage := localStorage;
             toasts := toasts st;
             submitted := submitted |}
      | RejectedError message =>
          {| formData := formData st; hasTriedSubmit := hasTriedSubmit st;
             isSubmitting := false; showSuccessModal := showSuccessModal st;
             generatedSKU := generatedSKU st; localStorage := localStorage st;
             toasts := (toasts st ++ [message])%list;
             submitted := submitted |}
      | RejectedOther =>
          {| formData := formData st; hasTriedSubmit := hasTriedSubmit st;
             isSubmitting := false; showSuccessModal := showSuccessModal st;
             generatedSKU := generatedSKU st; localStorage := localStorage st;
             toasts := (toasts st ++ ["Failed to submit SKU"])%list;
             submitted := submitted |}
      end
  end.

End ComboboxForm.

(* ===================================================================== *)
(** * Properties *)
(* ===================================================================== *)

(** ** Strings *)

Lemma truthy_true (s : string) : JSString.truthy s = true <-> s <> "".
Proof. destruct s; simpl; split; congruence. Qed.

Lemma truthy_eqb (s : string) : JSString.truthy s = negb (String.eqb s "").
Proof. now destruct s. Qed.

Lemma or_else_eqb (a b : string) :
  JSString.or_else a b = if String.eqb a "" then b else a.
Proof. now destruct a. Qed.

(** ** The cost cipher table (C3) *)

Section CipherTable.

Import JSNumber CostEncoder.

Lemma small_digit (d : N) :
  (d < 10)%N ->
  d = 0%N \/ d = 1%N \/ d = 2%N \/ d = 3%N \/ d = 4%N \/
  d = 5%N \/ d = 6%N \/ d = 7%N \/ d = 8%N \/ d = 9%N.
Proof. lia. Qed.

Lemma CRAZY_WOMAN_MAP_digit (d : N) :
  (d < 10)%N ->
  CRAZY_WOMAN_MAP !! String (digitChar d) "" = Some (String (letter d) "").
Proof.
  intros H. destruct (small_digit d H) as [-> | [-> | [-> | [-> | [-> |
    [-> | [-> | [-> | [-> | ->]]]]]]]]]; vm_compute; reflexivity.
Qed.

(** C3. The digit-to-letter table is exactly 0→C, 1→R, 2→A, 3→Z, 4→Y,
    5→W, 6→O, 7→M, 8→A, 9→N (these ten entries and no other), and
    decoding the letter of a digit [d] gives [d] back, except for 8,
    whose letter decodes to 2. *)
Theorem cipher_table_and_digit_decode :
  (forall key v : string,
      CRAZY_WOMAN_MAP !! key = Some v <->
      In (key, v) [ ("0", "C"); ("1", "R"); ("2", "A"); ("3", "Z");
                    ("4", "Y"); ("5", "W"); ("6", "O"); ("7", "M");
                    ("8", "A"); ("9", "N") ]) /\
  (forall d : N, (d < 10)%N ->
      exists l : string,
        CRAZY_WOMAN_MAP !! decimal d = Some l /\
        decodeCost l = Finite false (if (d =? 8)%N then 2%N else d) 0).
Proof.
  split.
  - intros key v. unfold CRAZY_WOMAN_MAP.
    rewrite <- list_elem_of_In, <- elem_of_list_to_map; [reflexivity |].
    apply (bool_decide_unpack _). vm_compute. reflexivity.
  - intros d H.
    destruct (small_digit d H) as [-> | [-> | [-> | [-> | [-> |
      [-> | [-> | [-> | [-> | ->]]]]]]]]];
      eexists; (split; [vm_compute; reflexivity | vm_compute; reflexivity]).
Qed.

Lemma cipher_table_and_digit_decode_witness :
  exists l : string,
    CRAZY_WOMAN_MAP !! decimal 8 = Some l /\
    decodeCost l = Finite false 2 0.
Proof.
  apply (proj2 cipher_table_and_digit_decode 8%N). reflexivity.
Defined.

End CipherTable.

(** ** Identifier assembly (C1) *)

Section Assembly.

Import GoogleSheetsService SKUGeneratorForm.

(** A key of one character is looked up among the own entries only. *)
Lemma get_single_character (table : gmap string string) (key : ascii) :
  JSObject.get table (String key EmptyString)
  = JSObject.Str <$> table !! String key EmptyString.
Proof.
  unfold JSObject.get.
  destruct (table !! String key EmptyString); [reflexivity |].
  destruct key as [[] [] [] [] [] [] [] []]; vm_compute; reflexivity.
Qed.

(** A value is truthy exactly when its text is not empty: a built-in
    object or function never prints as the empty string. *)
Lemma truthy_toString (v : JSObject.value) :
  JSObject.truthy v = negb (String.eqb (JSObject.toString v) "").
Proof. destruct v as [[| c s] | | |]; reflexivity. Qed.

Lemma toString_or_else (a : JSObject.value) (b : string) :
  JSObject.toString (JSObject.or_else a (JSObject.Str b))
  = JSString.or_else (JSObject.toString a) b.
Proof. destruct a as [[| c s] | | |]; reflexivity. Qed.

(** C1. [generateSKU] joins with "-" exactly nine tokens, in this order:
    the first token (category alias followed by group alias when both are
    non-empty, else the raw product group, else "---"), colour
    (alias, else raw, else "---"), size (else "--"), style (else "---"),
    location (alias, else raw, else "---") once, fabric and nature
    likewise, the vendor code (else "------") and the encoded cost (else
    "----" when the cost is empty). *)
Theorem generateSKU_nine_tokens (dropdownData : DropdownData) (formData : FormData) :
  let resolve field raw := JSObject.toString (getAlias dropdownData field raw) in
  let tokens :=
    [ first_token (resolve ProductCategories (productCategory formData))
                  (resolve ProductGroups (productGroup formData))
                  (productGroup formData);
      alias_or_raw_or (resolve Colors (color formData)) (color formData) "---";
      or_placeholder (size formData) "--";
      or_placeholder (style formData) "---";
      alias_or_raw_or (resolve Locations (location formData)) (location formData) "---";
      alias_or_raw_or (resolve Fabrics (fabric formData)) (fabric formData) "---";
      alias_or_raw_or (resolve Natures (nature formData)) (nature formData) "---";
      or_placeholder (vendorCode formData) "------";
      if String.eqb (cost formData) "" then "----"
      else CostEncoder.encodeCost (inl (cost formData)) ] in
  generateSKU dropdownData formData = String.concat "-" tokens
  /\ List.length tokens = 9%nat.
Proof.
  cbv zeta. split; [| reflexivity].
  unfold generateSKU, JSString.join, first_token, alias_or_raw_or, or_placeholder.
  cbn [List.map]. rewrite !toString_or_else, !truthy_toString.
  cbn [JSObject.toString].
  rewrite !or_else_eqb, !truthy_eqb.
  repeat match goal with
         | |- context [String.eqb ?x ""] => destruct (String.eqb x "")
         end; reflexivity.
Qed.

Example generateSKU_sample :
  let dropdownData :=
    {| productGroups := [ kurtaSetOption ];
       productCategories := [ {| value := "men"; label := "Men"; alias := Some "M" |} ];
       colors := [ {| value := "navy"; label := "Navy"; alias := None |} ];
       sizes := []; locations := []; fabrics := []; natures := [];
       vendorCodes := [] |} in
  let formData :=
    {| productGroup := "Kurta Set"; productCategory := "men"; color := "black";
       size := "XL"; style := "101"; location := ""; fabric := "cotton";
       nature := "solid"; vendorCode := "V00123"; cost := "1250.4" |} in
  generateSKU dropdownData formData
  = "MKT-BK-XL-101-----cotton-solid-V00123-RAWC"
  /\ generateSKU_combobox dropdownData formData
     = "MKT-BK-XL-101---------cotton-solid-V00123-RAWC".
Proof. split; vm_compute; reflexivity. Qed.

(** The form built on [Combobox] inputs emits the location token twice,
    hence ten tokens. *)
Lemma generateSKU_combobox_ten_tokens (dropdownData : DropdownData) (formData : FormData) :
  exists t1 t2 t3 t4 t5 t6 t7 t8 t9 : string,
    generateSKU_combobox dropdownData formData =
      String.concat "-" [t1; t2; t3; t4; t5; t5; t6; t7; t8; t9]
    /\ t5 = alias_or_raw_or
              (JSObject.toString (getAlias dropdownData Locations (location formData)))
              (location formData) "---".
Proof.
  unfold generateSKU_combobox, JSString.join, alias_or_raw_or, or_placeholder.
  cbn [List.map]. rewrite !toString_or_else.
  do 9 eexists. split; [reflexivity |].
  rewrite !or_else_eqb. reflexivity.
Qed.

End Assembly.

(** ** Submission validation (C6) *)

Section Validation.

Import SKUGeneratorForm.

Lemma truthy_and_then (a b : string) :
  JSString.truthy (and_then a b) = JSString.truthy a && JSString.truthy b.
Proof. now destruct a. Qed.

Lemma push_if_missing_app (field name : string) (missing : list string) :
  push_if_missing field name missing =
  (missing ++ (if String.eqb field "" then [name] else []))%list.
Proof.
  unfold push_if_missing. rewrite truthy_eqb.
  destruct (String.eqb field ""); simpl; [reflexivity | now rewrite app_nil_r].
Qed.

(** C6. [isFormComplete] is true (as a condition) exactly when all ten
    fields are non-empty, and [getMissingFields] lists the names of the
    empty fields, in the fixed field order; with only the product group
    and the cost set, the form is incomplete and the other eight names
    are listed in order. *)
Theorem isFormComplete_getMissingFields (formData : FormData) :
  (JSString.truthy (isFormComplete formData) = true <->
     Forall (fun field => fst field <> "") (required_fields formData))
  /\ getMissingFields formData =
       List.map snd (List.filter (fun field => String.eqb (fst field) "")
                                 (required_fields formData))
  /\ (productGroup formData <> "" -> cost formData <> "" ->
      productCategory formData = "" -> color formData = "" ->
      size formData = "" -> style formData = "" ->
      location formData = "" -> fabric formData = "" ->
      nature formData = "" -> vendorCode formData = "" ->
      JSString.truthy (isFormComplete formData) = false
      /\ getMissingFields formData =
           [ "Product Category"; "Color"; "Size"; "Style Number";
             "Location"; "Fabric"; "Nature"; "Vendor Code" ]).
Proof.
  assert (Hmissing : getMissingFields formData =
       List.map snd (List.filter (fun field => String.eqb (fst field) "")
                                 (required_fields formData))).
  { unfold getMissingFields, required_fields.
    rewrite !push_if_missing_app. cbn [List.filter fst].
    repeat match goal with
           | |- context [String.eqb ?x ""] => destruct (String.eqb x "")
           end; reflexivity. }
  split; [| split; [exact Hmissing |]].
  - unfold isFormComplete, required_fields.
    rewrite !truthy_and_then, !andb_true_iff, !truthy_true.
    rewrite !Forall_cons, Forall_nil. cbn [fst]. tauto.
  - intros Hg Hc Hpc Hco Hsi Hst Hlo Hfa Hna Hve. split.
    + unfold isFormComplete. rewrite Hpc.
      apply truthy_true in Hg. rewrite truthy_and_then, Hg. reflexivity.
    + rewrite Hmissing. unfold required_fields.
      rewrite Hpc, Hco, Hsi, Hst, Hlo, Hfa, Hna, Hve.
      apply String.eqb_neq in Hg, Hc. cbn [List.filter fst].
      rewrite Hg, Hc. reflexivity.
Qed.

Lemma isFormComplete_getMissingFields_witness :
  let formData :=
    {| productGroup := "Kurta"; productCategory := ""; color := "";
       size := ""; style := ""; location := ""; fabric := "";
       nature := ""; vendorCode := ""; cost := "500" |} in
  JSString.truthy (isFormComplete formData) = false
  /\ getMissingFields formData =
       [ "Product Category"; "Color"; "Size"; "Style Number";
         "Location"; "Fabric"; "Nature"; "Vendor Code" ].
Proof.
  intros formData.
  apply (proj2 (proj2 (isFormComplete_getMissingFields formData)));
    (discriminate || reflexivity).
Defined.

End Validation.

(** ** Option canonicalisation (C8) *)

Section Canonicalisation.

Import GoogleSheetsService.

Lemma opt_or_truthy (a : option string) (b : string) :
  JSString.truthy b = true -> JSString.truthy (JSString.opt_or a b) = true.
Proof. intros Hb. destruct a as [[|c a] |]; simpl; auto. Qed.

(** A canonical option that survives the filter goes through
    [transformItem] unchanged. *)
Lemma transformItem_canonical (item : RawItem) :
  value (transformItem item) <> "" ->
  transformItem (as_raw (transformItem item)) = transformItem item.
Proof.
  destruct item as [s | v l a |]; simpl; intros Hne.
  - destruct s; [congruence | reflexivity].
  - destruct v as [[|cv v] |], l as [[|cl l] |]; simpl in *;
      congruence || reflexivity.
  - congruence.
Qed.

(** C8. [transformData] is idempotent: applied to its own output it
    returns that output unchanged, each option keeping its value, label
    and alias. *)
Theorem transformData_idempotent (items : RawItems) :
  transformData (Items (List.map as_raw (transformData items)))
  = transformData items
  /\ Forall (fun o => value o <> "" /\ transformItem (as_raw o) = o)
            (transformData items).
Proof.
  destruct items as [| items]; [split; [reflexivity | constructor] |].
  cbn [transformData].
  induction items as [| item items [IH1 IH2]]; [split; [reflexivity | constructor] |].
  cbn [List.map List.filter].
  destruct (String.eqb (value (transformItem item)) "") eqn:E; cbn [negb].
  - split; assumption.
  - apply String.eqb_neq in E as E'.
    cbn [List.map List.filter].
    rewrite (transformItem_canonical item E'), E. cbn [negb].
    split; [f_equal; exact IH1 |].
    constructor; [split; [exact E' | exact (transformItem_canonical item E')] | exact IH2].
Qed.

End Canonicalisation.

(** ** Alias resolution (C2, C5) *)

Section Resolution.

Import GoogleSheetsService SKUGeneratorForm.

Lemma normalize_empty : normalize "" = "".
Proof. reflexivity. Qed.

Lemma lowerChar_lowerChar (c : ascii) :
  JSString.lowerChar (JSString.lowerChar c) = JSString.lowerChar c.
Proof.
  destruct c as [[] [] [] [] [] [] [] []]; vm_compute; reflexivity.
Qed.

Lemma toLowerCase_toLowerCase (s : string) :
  JSString.toLowerCase (JSString.toLowerCase s) = JSString.toLowerCase s.
Proof.
  unfold JSString.toLowerCase.
  induction s as [| c s IH]; [reflexivity |].
  cbn [JSString.map_chars]. now rewrite lowerChar_lowerChar, IH.
Qed.

(** A normalised value holds no capital letter, so the only members of
    [Object.prototype] it can name are "constructor" and "__proto__". *)
Lemma inherited_normalize (value : string) :
  JSObject.inherited (normalize value)
  = if String.eqb (normalize value) "constructor" then Some JSObject.ObjectConstructor
    else if String.eqb (normalize value) "__proto__" then Some JSObject.ObjectPrototype
    else None.
Proof.
  unfold JSObject.inherited.
  destruct (String.eqb (normalize value) "constructor"); [reflexivity |].
  destruct (String.eqb (normalize value) "__proto__"); [reflexivity |].
  assert (Hlower : JSString.toLowerCase (normalize value) = normalize value)
    by apply toLowerCase_toLowerCase.
  assert (Hmethods :
    Forall (fun name => JSString.toLowerCase name <> name)
           JSObject.Object_prototype_methods)
    by (repeat constructor; vm_compute; discriminate).
  assert (Hnone : existsb (String.eqb (normalize value))
                           JSObject.Object_prototype_methods = false).
  { induction Hmethods as [| name names Hname _ IH]; [reflexivity |].
    cbn [existsb]. rewrite IH, orb_false_r.
    destruct (String.eqb_spec (normalize value) name) as [E | E]; [| reflexivity].
    rewrite E in Hlower. contradiction. }
  now rewrite Hnone.
Qed.

(** The table of the source holds the entries of [fallback_spec]. *)
Lemma HARDCODED_ALIASES_own (field : Field) (key : string) :
  HARDCODED_ALIASES !! field_name field ≫= (fun table => table !! key)
  = fallback_spec field key.
Proof.
  assert (Hgroups : HARDCODED_ALIASES !! "productGroups"
    = Some (list_to_map [ ("kurtaset", "KT"); ("kurta set", "KT"); ("kurta", "KU") ]))
    by (vm_compute; reflexivity).
  assert (Hnatures : HARDCODED_ALIASES !! "natures"
    = Some (list_to_map [ ("printed", "PR"); ("solid", "SL"); ("embroidery", "EM") ]))
    by (vm_compute; reflexivity).
  assert (Hcolors : HARDCODED_ALIASES !! "colors"
    = Some (list_to_map [ ("black", "BK"); ("white", "WH"); ("red", "RD");
                          ("blue", "BL"); ("green", "GR"); ("yellow", "YL");
                          ("pink", "PK") ]))
    by (vm_compute; reflexivity).
  destruct field; cbn [field_name fallback_spec];
    try (vm_compute; reflexivity);
    rewrite ?Hgroups, ?Hnatures, ?Hcolors; cbn [mbind option_bind];
    repeat (rewrite list_to_map_cons;
            match goal with
            | |- context [<[?k := _]> _ !! key] =>
                destruct (String.eqb_spec key k) as [-> | ?];
                [now rewrite lookup_insert_eq
                | rewrite lookup_insert_ne by congruence]
            end);
    apply lookup_empty.
Qed.

(** [HARDCODED_ALIASES[field][normalizedValue]] on a normalised value: the
    entry of the table, else, in a category that has a table, the member
    inherited under "constructor" or "__proto__". *)
Lemma hardcodedAlias_normalized (field : Field) (value : string) :
  hardcodedAlias field (normalize value)
  = match fallback_spec field (normalize value) with
    | Some a => Some (JSObject.Str a)
    | None =>
        match field with
        | ProductGroups | Natures | Colors =>
            if String.eqb (normalize value) "constructor"
            then Some JSObject.ObjectConstructor
            else if String.eqb (normalize value) "__proto__"
            then Some JSObject.ObjectPrototype
            else None
        | _ => None
        end
    end.
Proof.
  rewrite <- HARDCODED_ALIASES_own, <- inherited_normalize.
  unfold hardcodedAlias, JSObject.get.
  destruct field; cbn [field_name];
    destruct (HARDCODED_ALIASES !! _) as [table |] eqn:Htable;
    cbn [mbind option_bind];
    try (vm_compute in Htable; discriminate Htable);
    try reflexivity;
    destruct (table !! normalize value); reflexivity.
Qed.

(** No entry of the static fallback table is empty. *)
Lemma fallback_spec_nonempty (field : Field) (normalized a : string) :
  fallback_spec field normalized = Some a -> a <> "".
Proof.
  destruct field; cbn [fallback_spec];
    repeat match goal with
           | |- context [String.eqb normalized ?k] =>
               destruct (String.eqb normalized k)
           end;
    intros [= <-] || intros [=]; discriminate.
Qed.

(** What the table lookup gives is truthy. *)
Lemma hardcodedAlias_truthy (field : Field) (value : string)
    (hardcoded : JSObject.value) :
  hardcodedAlias field (normalize value) = Some hardcoded ->
  JSObject.truthy hardcoded = true.
Proof.
  rewrite hardcodedAlias_normalized.
  destruct (fallback_spec field (normalize value)) as [a |] eqn:Ha.
  - intros [= <-]. apply fallback_spec_nonempty in Ha.
    now destruct a.
  - destruct field, (String.eqb (normalize value) "constructor"),
      (String.eqb (normalize value) "__proto__");
      intros [= <-] || intros [=]; reflexivity.
Qed.

Lemma getAlias_empty (dropdownData : DropdownData) (field : Field) :
  getAlias dropdownData field "" = JSObject.Str "".
Proof. reflexivity. Qed.

(** With no option loaded in the category the raw value is returned. *)
Lemma getAlias_no_options (dropdownData : DropdownData) (field : Field)
    (value : string) :
  options_of dropdownData field = [] ->
  getAlias dropdownData field value = JSObject.Str value.
Proof.
  intros Hnil. unfold getAlias. rewrite Hnil.
  destruct value; reflexivity.
Qed.




(** Nor is the end of the chain always the raw input: with options loaded
    and no alias found, "constructor" in a category that has a fallback
    table gives what the table inherits under that name. *)
Example getAlias_inherited_member :
  let dropdownData :=
    {| productGroups := [ {| value := "Saree"; label := "Saree"; alias := Some "SR" |} ];
       productCategories := []; colors := []; sizes := []; locations := [];
       fabrics := []; natures := []; vendorCodes := [] |} in
  getAlias dropdownData ProductGroups "Constructor" = JSObject.ObjectConstructor
  /\ getAlias dropdownData ProductGroups "__proto__" = JSObject.ObjectPrototype
  /\ getAlias dropdownData ProductGroups "Constructor" <> JSObject.Str "Constructor".
Proof. repeat split; vm_compute; reflexivity || discriminate. Qed.



Lemma find_first_match (normalized : string) (before after : list DropdownOption)
    (o : DropdownOption) :
  Forall (fun o' => matches normalized o' = false) before ->
  matches normalized o = true ->
  List.find (matches normalized) (before ++ o :: after) = Some o.
Proof.
  intros Hbefore Ho. induction Hbefore as [| o' before Ho' _ IH]; simpl.
  - now rewrite Ho.
  - now rewrite Ho'.
Qed.

(** C5, as stated, fails: an earlier entry that matches the same input
    and carries no alias hides the option. *)
Lemma getAlias_shadowed_option :
  let dropdownData :=
    {| productGroups := []; productCategories := []; colors := []; sizes := [];
       locations := [];
       fabrics := [ {| value := "Kurta Set"; label := "Kurta Set"; alias := None |};
                    kurtaSetOption ];
       natures := []; vendorCodes := [] |} in
  In kurtaSetOption (options_of dropdownData Fabrics)
  /\ getAlias dropdownData Fabrics "Kurta Set" = JSObject.Str "Kurta Set"
  /\ getAlias dropdownData Fabrics "Kurta Set" <> JSObject.Str "KT".
Proof.
  intros dropdownData. split; [right; left; reflexivity |].
  split; [vm_compute; reflexivity | vm_compute; discriminate].
Qed.

(** C5 (amended). [getAlias] of the empty string is the empty string in
    every category; and when the option list of a category contains
    {value: "kurta-set", label: "Kurta Set", alias: "KT"} and no entry
    before it matches the input, every input that is "kurta set" or
    "kurta-set" up to surrounding white space and letter case resolves
    to "KT". *)
Theorem getAlias_empty_and_kurta_set (dropdownData : DropdownData) (field : Field) :
  getAlias dropdownData field "" = JSObject.Str ""
  /\ (forall (before after : list DropdownOption) (rawValue : string),
        options_of dropdownData field = (before ++ kurtaSetOption :: after)%list ->
        normalize rawValue = "kurta set" \/ normalize rawValue = "kurta-set" ->
        Forall (fun o => matches (normalize rawValue) o = false) before ->
        getAlias dropdownData field rawValue = JSObject.Str "KT").
Proof.
  split; [reflexivity |].
  intros before after rawValue Hopts Hnorm Hbefore.
  assert (Hmatch : matches (normalize rawValue) kurtaSetOption = true)
    by (destruct Hnorm as [-> | ->]; reflexivity).
  assert (Hne : rawValue <> "")
    by (intros ->; destruct Hnorm as [H | H]; discriminate H).
  unfold getAlias. rewrite Hopts.
  rewrite (find_first_match _ before after kurtaSetOption Hbefore Hmatch).
  destruct rawValue; [congruence |]. cbn [JSString.truthy negb].
  destruct before; reflexivity.
Qed.

Lemma getAlias_empty_and_kurta_set_witness :
  let dropdownData :=
    {| productGroups :=
         [ {| value := "saree"; label := "Saree"; alias := Some "SR" |};
           kurtaSetOption ];
       productCategories := []; colors := []; sizes := []; locations := [];
       fabrics := []; natures := []; vendorCodes := [] |} in
  getAlias dropdownData ProductGroups "Kurta Set" = JSObject.Str "KT"
  /\ getAlias dropdownData ProductGroups "kurta-set" = JSObject.Str "KT".
Proof.
  intros dropdownData. split.
  - apply (proj2 (getAlias_empty_and_kurta_set dropdownData ProductGroups)
             [ {| value := "saree"; label := "Saree"; alias := Some "SR" |} ] []);
      [reflexivity | left; reflexivity | repeat constructor].
  - apply (proj2 (getAlias_empty_and_kurta_set dropdownData ProductGroups)
             [ {| value := "saree"; label := "Saree"; alias := Some "SR" |} ] []);
      [reflexivity | right; reflexivity | repeat constructor].
Defined.

End Resolution.

(** ** The history filter (C7) *)

Section HistoryFilter.

Import SKUHistory.











Lemma filter_filter {A : Type} (f g : A -> bool) (l : list A) :
  List.filter g (List.filter f l) = List.filter (fun x => f x && g x) l.
Proof.
  induction l as [| x l IH]; simpl; [reflexivity |].
  destruct (f x); simpl; [destruct (g x) |]; now rewrite IH.
Qed.

Lemma filter_sublist {A : Type} (f : A -> bool) (l : list A) :
  sublist (List.filter f l) l.
Proof.
  induction l as [| x l IH]; simpl; [constructor |].
  destruct (f x); now constructor.
Qed.


End HistoryFilter.

(** ** Decimal digits *)

Section Digits.

Import JSNumber.
Local Open Scope N_scope.

Lemma digits_aux_acc (fuel : nat) (n : N) (acc : list N) :
  digits_aux fuel n acc = (digits_aux fuel n [] ++ acc)%list.
Proof.
  revert n acc. induction fuel as [| fuel IH]; intros n acc; simpl; [reflexivity |].
  destruct (n <? 10); [reflexivity |].
  rewrite (IH _ (_ :: acc)), (IH _ [_]), <- app_assoc. reflexivity.
Qed.

Lemma digits_aux_fuel (f1 f2 : nat) (n : N) (acc : list N) :
  n < 2 ^ N.of_nat (S f1) -> n < 2 ^ N.of_nat (S f2) ->
  digits_aux (S f1) n acc = digits_aux (S f2) n acc.
Proof.
  revert f2 n acc. induction f1 as [| f1 IH]; intros f2 n acc H1 H2.
  - change (2 ^ N.of_nat 1) with 2 in H1.
    cbn [digits_aux]. assert (E : (n <? 10) = true) by (apply N.ltb_lt; lia).
    now rewrite E.
  - cbn [digits_aux]. destruct (n <? 10) eqn:E; [reflexivity |].
    apply N.ltb_ge in E.
    destruct f2 as [| f2].
    { change (2 ^ N.of_nat 1) with 2 in H2. lia. }
    change (digits_aux (S f1) (n / 10) (n mod 10 :: acc)
            = digits_aux (S f2) (n / 10) (n mod 10 :: acc)).
    assert (Hhalf : forall f, n < 2 ^ N.of_nat (S (S f)) -> n / 10 < 2 ^ N.of_nat (S f)).
    { intros f Hf. rewrite (Nat2N.inj_succ (S f)), N.pow_succ_r' in Hf.
      apply N.Div0.div_lt_upper_bound. lia. }
    apply IH; apply Hhalf; assumption.
Qed.

Lemma digits_small (n : N) : n < 10 -> digits n = [n].
Proof.
  intros H. unfold digits. cbn [digits_aux].
  apply N.ltb_lt in H as E. rewrite E. apply N.ltb_lt in E.
  now rewrite N.mod_small.
Qed.

Lemma digits_step (n : N) :
  10 <= n -> digits n = (digits (n / 10) ++ [n mod 10])%list.
Proof.
  intros H. unfold digits at 1. cbn [digits_aux].
  apply N.ltb_ge in H as E. rewrite E.
  rewrite digits_aux_acc. f_equal.
  assert (Hlog : 3 <= N.log2 n).
  { change 3 with (N.log2 8). apply N.log2_le_mono. lia. }
  destruct (N.to_nat (N.log2 n)) as [| f] eqn:Ef; [lia |].
  unfold digits. apply digits_aux_fuel.
  - apply N.Div0.div_lt_upper_bound.
    assert (n < 2 ^ N.succ (N.log2 n)) by (apply N.log2_spec; lia).
    replace (N.of_nat (S f)) with (N.log2 n) by lia.
    rewrite N.pow_succ_r' in *. lia.
  - destruct (N.eq_dec (n / 10) 0) as [-> | Hpos].
    + simpl. lia.
    + replace (N.of_nat (S (N.to_nat (N.log2 (n / 10)))))
        with (N.succ (N.log2 (n / 10))) by lia.
      destruct (N.log2_spec (n / 10)) as [_ Hlt]; [| exact Hlt].
      apply N.neq_0_lt_0. exact Hpos.
Qed.

Lemma digits_ind (P : N -> Prop) :
  (forall n, n < 10 -> P n) ->
  (forall n, 10 <= n -> P (n / 10) -> P n) ->
  forall n, P n.
Proof.
  intros Hsmall Hstep n.
  induction n as [n IH] using (well_founded_induction N.lt_wf_0).
  destruct (N.lt_ge_cases n 10) as [H | H]; [now apply Hsmall |].
  apply Hstep; [exact H |]. apply IH.
  apply N.Div0.div_lt_upper_bound. lia.
Qed.

Lemma digits_lt_10 (n : N) : Forall (fun d => d < 10) (digits n).
Proof.
  induction n as [n H | n H IH] using digits_ind.
  - rewrite digits_small by exact H. repeat constructor. exact H.
  - rewrite digits_step by exact H. apply Forall_app. split; [exact IH |].
    repeat constructor. apply N.mod_lt. lia.
Qed.

Lemma digits_value_app (ds : list N) (d : N) :
  digits_value (ds ++ [d]) = 10 * digits_value ds + d.
Proof. unfold digits_value. now rewrite fold_left_app. Qed.

(** [digits] is a decimal representation of its argument. *)
Lemma digits_value_digits (n : N) : digits_value (digits n) = n.
Proof.
  induction n as [n H | n H IH] using digits_ind.
  - rewrite digits_small by exact H. unfold digits_value. simpl. lia.
  - rewrite digits_step by exact H. rewrite digits_value_app, IH.
    rewrite (N.div_mod n 10) at 3 by lia. reflexivity.
Qed.

Lemma ndigits_small (n : N) : n < 10 -> ndigits n = 1%nat.
Proof. intros H. unfold ndigits. now rewrite digits_small. Qed.

Lemma ndigits_step (n : N) : 10 <= n -> ndigits n = S (ndigits (n / 10)).
Proof.
  intros H. unfold ndigits. rewrite digits_step by exact H.
  rewrite length_app. simpl. lia.
Qed.

Lemma ndigits_upper (n : N) : n < 10 ^ N.of_nat (ndigits n).
Proof.
  induction n as [n H | n H IH] using digits_ind.
  - rewrite ndigits_small by exact H. exact H.
  - rewrite ndigits_step by exact H.
    rewrite Nat2N.inj_succ, N.pow_succ_r'.
    rewrite (N.div_mod n 10) at 1 by lia.
    assert (n mod 10 < 10) by (apply N.mod_lt; lia). lia.
Qed.

Lemma ndigits_lower (n : N) : 0 < n -> 10 ^ N.of_nat (ndigits n - 1) <= n.
Proof.
  induction n as [n H | n H IH] using digits_ind; intros Hpos.
  - rewrite ndigits_small by exact H. simpl. lia.
  - rewrite ndigits_step by exact H.
    assert (Hq : 0 < n / 10) by (apply N.div_str_pos; lia).
    specialize (IH Hq).
    assert (Hn : (1 <= ndigits (n / 10))%nat).
    { destruct (N.lt_ge_cases (n / 10) 10) as [Hs | Hs].
      - rewrite ndigits_small by exact Hs. lia.
      - rewrite ndigits_step by exact Hs. lia. }
    replace (N.of_nat (S (ndigits (n / 10)) - 1))
      with (N.succ (N.of_nat (ndigits (n / 10) - 1))) by lia.
    rewrite N.pow_succ_r'.
    assert (10 * (n / 10) <= n) by (apply N.Div0.mul_div_le).
    lia.
Qed.

Lemma digits_mul_10 (s : N) : 0 < s -> digits (s * 10) = (digits s ++ [0])%list.
Proof.
  intros H. rewrite digits_step by lia.
  rewrite N.div_mul by lia. now rewrite N.Div0.mod_mul.
Qed.

Lemma digits_mul_pow10 (s : N) (j : nat) :
  0 < s -> digits (s * 10 ^ N.of_nat j) = (digits s ++ List.repeat 0 j)%list.
Proof.
  intros H. induction j as [| j IH].
  - simpl. now rewrite N.mul_1_r, app_nil_r.
  - rewrite Nat2N.inj_succ, N.pow_succ_r'.
    replace (s * (10 * 10 ^ N.of_nat j)) with (s * 10 ^ N.of_nat j * 10) by lia.
    rewrite digits_mul_10, IH.
    + rewrite <- app_assoc. f_equal.
      change [0] with (List.repeat 0 1). rewrite <- repeat_app.
      f_equal. lia.
    + apply N.mul_pos_pos; [exact H |].
      apply N.neq_0_lt_0, N.pow_nonzero. lia.
Qed.

End Digits.

(** ** The number model on known values *)

Example parseFloat_values :
  JSNumber.parseFloat "0500" = JSNumber.Finite false 500 0
  /\ JSNumber.parseFloat "  12.5kg" = JSNumber.Finite false 25 1
  /\ JSNumber.parseFloat "-.5e1" = JSNumber.Finite true 5 0
  /\ JSNumber.parseFloat "0.1" = JSNumber.Finite false 3602879701896397 55
  /\ JSNumber.parseFloat "1e400" = JSNumber.Infinity false
  /\ JSNumber.parseFloat "abc" = JSNumber.NaN
  /\ JSNumber.parseFloat "" = JSNumber.NaN.
Proof. repeat split; vm_compute; reflexivity. Qed.

Example Math_round_values :
  JSNumber.Math_round (JSNumber.parseFloat "2.5") = JSNumber.Finite false 3 0
  /\ JSNumber.Math_round (JSNumber.parseFloat "2.4") = JSNumber.Finite false 2 0
  /\ JSNumber.Math_round (JSNumber.parseFloat "-2.5") = JSNumber.Finite true 2 0
  /\ JSNumber.Math_round (JSNumber.parseFloat "-2.6") = JSNumber.Finite true 3 0
  /\ JSNumber.Math_round (JSNumber.parseFloat "0.49999999999999994")
     = JSNumber.Finite false 0 0.
Proof. repeat split; vm_compute; reflexivity. Qed.

Example Number_toString_values :
  JSNumber.Number_toString (JSNumber.parseFloat "0.1") = "0.1"
  /\ JSNumber.Number_toString (JSNumber.parseFloat "1500.0") = "1500"
  /\ JSNumber.Number_toString (JSNumber.parseFloat "-0") = "0"
  /\ JSNumber.Number_toString (JSNumber.parseFloat "123456789012345678901")
     = "123456789012345680000"
  /\ JSNumber.Number_toString (JSNumber.parseFloat "1e21") = "1e+21"
  /\ JSNumber.Number_toString (JSNumber.parseFloat "0.0000001") = "1e-7"
  /\ JSNumber.Number_toString (JSNumber.parseFloat "5e-324") = "5e-324"
  /\ JSNumber.Number_toString (JSNumber.parseFloat "1.7976931348623157e308")
     = "1.7976931348623157e+308".
Proof. repeat split; vm_compute; reflexivity. Qed.

(** ** Conversion of integers to binary64 *)

Section Binary64.

Import JSNumber.
Local Open Scope N_scope.

Lemma div_nearest_even_1 (a : N) : div_nearest_even a 1 = a.
Proof.
  unfold div_nearest_even. rewrite N.mod_1_r, N.div_1_r. reflexivity.
Qed.

Lemma div_nearest_even_bounds (a b : N) :
  a / b <= div_nearest_even a b <= a / b + 1.
Proof.
  unfold div_nearest_even.
  destruct (2 * (a mod b) ?= b); [destruct (N.even (a / b)) | |]; lia.
Qed.

Lemma normalize_nat_pow2 (k : nat) (p : N) :
  normalize_nat k (p * 2 ^ N.of_nat k) = (p, 0).
Proof.
  induction k as [| k IH].
  - simpl. now rewrite N.mul_1_r.
  - cbn [normalize_nat]. rewrite Nat2N.inj_succ, N.pow_succ_r'.
    replace (p * (2 * 2 ^ N.of_nat k)) with (2 * (p * 2 ^ N.of_nat k)) by lia.
    set (x := p * 2 ^ N.of_nat k) in *.
    rewrite N.even_even, (N.mul_comm 2 x), N.div_mul by lia.
    exact IH.
Qed.

Lemma normalize_pow2 (p k : N) : normalize (p * 2 ^ k) k = (p, 0).
Proof.
  unfold normalize.
  pose proof (normalize_nat_pow2 (N.to_nat k) p) as H.
  now rewrite N2Nat.id in H.
Qed.

Lemma log2_ratio_1 (p : N) : 0 < p -> log2_ratio p 1 = Z.of_N (N.log2 p).
Proof.
  intros H. unfold log2_ratio. change (N.log2 1) with 0.
  rewrite Z.sub_0_r.
  assert (E : (0 <=? Z.of_N (N.log2 p))%Z = true) by (apply Z.leb_le; lia).
  rewrite E, N2Z.id, N.mul_1_l.
  assert (E' : (2 ^ N.log2 p <=? p) = true)
    by (apply N.leb_le, N.log2_spec; exact H).
  now rewrite E'.
Qed.

(** The sign goes through the conversion untouched. *)
Lemma binary64_negate (p q : N) :
  binary64 true p q = negate (binary64 false p q).
Proof.
  unfold binary64.
  destruct (p =? 0); [reflexivity |].
  destruct (0 <=? Z.max (log2_ratio p q - 52) (-1074))%Z.
  - match goal with |- context [if ?c then _ else _] => destruct c end; reflexivity.
  - destruct (normalize _ _). reflexivity.
Qed.

(** Integers below 2^53 are binary64 values. *)
Lemma binary64_exact (neg : bool) (p : N) :
  p < 2 ^ 53 -> binary64 neg p 1 = Finite neg p 0.
Proof.
  intros Hp. unfold binary64.
  destruct (N.eqb_spec p 0) as [-> | Hne]; [reflexivity |].
  rewrite log2_ratio_1 by lia.
  assert (Hlog : N.log2 p < 53) by (apply N.log2_lt_pow2; lia).
  rewrite Z.max_l by lia.
  destruct (Z.leb_spec 0 (Z.of_N (N.log2 p) - 52)) as [He | He].
  - replace (Z.of_N (N.log2 p) - 52)%Z with 0%Z by lia.
    cbn [Z.to_N Z.ltb Z.eqb Z.compare orb andb].
    change (2 ^ 0) with 1. rewrite !N.mul_1_r. now rewrite div_nearest_even_1.
  - rewrite div_nearest_even_1, normalize_pow2. reflexivity.
Qed.

(** The conversion of an integer is an integer, or overflows. *)
Lemma binary64_integer (neg : bool) (p : N) :
  binary64 neg p 1 = Infinity neg \/ exists v, binary64 neg p 1 = Finite neg v 0.
Proof.
  unfold binary64.
  destruct (N.eqb_spec p 0) as [-> | Hne]; [right; eauto |].
  rewrite log2_ratio_1 by lia.
  rewrite Z.max_l by lia.
  destruct (Z.leb_spec 0 (Z.of_N (N.log2 p) - 52)) as [He | He].
  - match goal with |- context [if ?c then _ else _] => destruct c end; eauto.
  - rewrite div_nearest_even_1, normalize_pow2. eauto.
Qed.

(** From 2^53 on the conversion stays at or above 2^53. *)
Lemma binary64_large (p : N) :
  2 ^ 53 <= p ->
  binary64 false p 1 = Infinity false
  \/ exists v, binary64 false p 1 = Finite false v 0 /\ 2 ^ 53 <= v.
Proof.
  intros Hp. unfold binary64.
  destruct (N.eqb_spec p 0) as [-> | Hne]; [vm_compute in Hp; congruence |].
  rewrite log2_ratio_1 by lia.
  assert (Hlog : 53 <= N.log2 p).
  { change 53 with (N.log2 (2 ^ 53)). now apply N.log2_le_mono. }
  rewrite Z.max_l by lia.
  destruct (Z.leb_spec 0 (Z.of_N (N.log2 p) - 52)) as [He | He]; [| lia].
  match goal with |- context [if ?c then _ else _] => destruct c end; [now left |].
  right. eexists. split; [reflexivity |].
  rewrite N.mul_1_l.
  set (e := Z.to_N (Z.of_N (N.log2 p) - 52)).
  assert (He' : N.log2 p = 52 + e) by lia.
  assert (Hpow : 2 ^ N.log2 p <= p) by (apply N.log2_spec; lia).
  rewrite He', N.pow_add_r in Hpow.
  assert (Hm : 2 ^ 52 <= p / 2 ^ e).
  { apply N.div_le_lower_bound; [apply N.pow_nonzero; lia | lia]. }
  pose proof (div_nearest_even_bounds p (2 ^ e)) as [Hlo _].
  assert (He1 : 1 <= e) by lia.
  assert (H2e : 2 ^ 1 <= 2 ^ e) by (apply N.pow_le_mono_r; lia).
  change (2 ^ 53) with (2 ^ 52 * 2 ^ 1).
  apply N.mul_le_mono; lia.
Qed.

(** The least integer that converts to Infinity: the largest binary64 value
    plus half a unit in its last place. *)
Lemma overflow_threshold_eq :
  overflow_threshold = (2 ^ 53 - 1) * 2 ^ 971 + 2 ^ 970
  /\ 2 ^ 971 = 2 * 2 ^ 970
  /\ overflow_threshold < 2 ^ 1024
  /\ 10 ^ 308 < overflow_threshold.
Proof. repeat split; vm_compute; reflexivity. Qed.

Lemma div_nearest_even_971 (p : N) :
  2 ^ 1023 <= p < 2 ^ 1024 ->
  (2 ^ 53 <=? div_nearest_even p (2 ^ 971)) = (overflow_threshold <=? p).
Proof.
  intros [Hlo Hhi].
  destruct overflow_threshold_eq as (HT & Hb & _ & _).
  assert (H1023 : 2 ^ 1023 = 2 ^ 52 * 2 ^ 971) by (vm_compute; reflexivity).
  assert (H1024 : 2 ^ 1024 = 2 ^ 53 * 2 ^ 971) by (vm_compute; reflexivity).
  assert (H53 : 2 ^ 53 = 9007199254740992) by reflexivity.
  assert (H52 : 2 ^ 52 = 4503599627370496) by reflexivity.
  rewrite HT. clear HT. unfold div_nearest_even.
  pose proof (N.div_mod p (2 ^ 971)) as Hdm.
  pose proof (N.mod_lt p (2 ^ 971)) as Hr.
  set (b := 2 ^ 971) in *. set (h := 2 ^ 970) in *.
  set (q := p / b) in *. set (r := p mod b) in *.
  assert (Hb0 : b <> 0) by lia. specialize (Hdm Hb0). specialize (Hr Hb0).
  rewrite H1023 in Hlo. rewrite H1024 in Hhi. rewrite H53, H52 in *.
  change (9007199254740992 - 1) with 9007199254740991.
  assert (Hq : 4503599627370496 <= q < 9007199254740992) by nia.
  destruct (N.lt_ge_cases q 9007199254740991) as [Hsmall | Hbig].
  - assert (E : (9007199254740991 * b + h <=? p) = false) by (apply N.leb_gt; nia).
    rewrite E. apply N.leb_gt.
    destruct (2 * r ?= b); [destruct (N.even q) | |]; lia.
  - assert (Eq : q = 9007199254740991) by lia.
    destruct (N.compare_spec (2 * r) b) as [Hc | Hc | Hc].
    + rewrite Eq. change (N.even 9007199254740991) with false. cbv iota.
      transitivity true; [apply N.leb_le; lia | symmetry; apply N.leb_le; nia].
    + transitivity false; [apply N.leb_gt; lia | symmetry; apply N.leb_gt; nia].
    + transitivity true; [apply N.leb_le; lia | symmetry; apply N.leb_le; nia].
Qed.

(** The conversion of an integer overflows exactly from the threshold on. *)
Lemma binary64_overflow_iff (neg : bool) (p : N) :
  (overflow_threshold <= p -> binary64 neg p 1 = Infinity neg)
  /\ (p < overflow_threshold -> exists v, binary64 neg p 1 = Finite neg v 0).
Proof.
  destruct overflow_threshold_eq as (_ & _ & HT & _).
  unfold binary64.
  destruct (N.eqb_spec p 0) as [-> | Hne].
  { split; [intros H; vm_compute in H; congruence | eauto]. }
  rewrite log2_ratio_1 by lia.
  rewrite Z.max_l by lia.
  pose proof (N.log2_spec p ltac:(lia)) as [Hlog_lo Hlog_hi].
  destruct (Z.leb_spec 0 (Z.of_N (N.log2 p) - 52)) as [He | He].
  - rewrite N.mul_1_l.
    destruct (Z.ltb_spec 971 (Z.of_N (N.log2 p) - 52)) as [Hbig | Hbig];
      cbn [orb].
    + split; [reflexivity |]. intros Hp. exfalso.
      assert (2 ^ 1024 <= 2 ^ N.log2 p) by (apply N.pow_le_mono_r; lia). lia.
    + destruct (Z.eqb_spec (Z.of_N (N.log2 p) - 52) 971) as [E | E]; cbn [andb].
      * assert (Elog : N.log2 p = 1023) by lia.
        rewrite E. change (Z.to_N 971) with 971.
        rewrite Elog in Hlog_lo, Hlog_hi. change (N.succ 1023) with 1024 in Hlog_hi.
        rewrite (div_nearest_even_971 p (conj Hlog_lo Hlog_hi)).
        destruct (N.leb_spec overflow_threshold p); split; intros; (lia || eauto).
      * split; [| eauto]. intros Hp. exfalso.
        assert (N.succ (N.log2 p) <= 1023) by lia.
        assert (2 ^ N.succ (N.log2 p) <= 2 ^ 1023) by (apply N.pow_le_mono_r; lia).
        assert (2 ^ 1023 < overflow_threshold) by (vm_compute; reflexivity).
        lia.
  - rewrite div_nearest_even_1, normalize_pow2. split; [| eauto].
    intros Hp. exfalso.
    assert (N.succ (N.log2 p) <= 1023) by lia.
    assert (2 ^ N.succ (N.log2 p) <= 2 ^ 1023) by (apply N.pow_le_mono_r; lia).
    assert (2 ^ 1023 < overflow_threshold) by (vm_compute; reflexivity).
    lia.
Qed.

End Binary64.

(** ** [Number.prototype.toString] on safe integers *)

Section ToStringSafe.

Import JSNumber.
Local Open Scope N_scope.

Variable x : N.
Hypothesis x_pos : 0 < x.
Hypothesis x_safe : x < 2 ^ 53.

Let n : Z := Z.of_nat (ndigits x).

Lemma ndigits_safe : (1 <= n <= 16)%Z.
Proof using x_pos x_safe.
  subst n. pose proof (ndigits_upper x) as Hup.
  pose proof (ndigits_lower x x_pos) as Hlo.
  split.
  - destruct (ndigits x); [simpl in Hup; lia | lia].
  - assert (H : 10 ^ N.of_nat (ndigits x - 1) < 10 ^ 16).
    { eapply N.le_lt_trans; [exact Hlo |].
      eapply N.lt_trans; [exact x_safe | vm_compute; reflexivity]. }
    apply N.pow_lt_mono_r_iff in H; lia.
Qed.

Lemma candidate_safe (k : N) :
  (Z.of_N k <= n)%Z ->
  let j := Z.to_N (n - Z.of_N k) in
  candidate x 0 n k
  = if x / 10 ^ j * 10 ^ j =? x then Some (x / 10 ^ j) else None.
Proof using x_pos x_safe.
  intros Hk j. unfold candidate, binary64_scaled, same_magnitude.
  assert (E : (0 <=? n - Z.of_N k)%Z = true) by (apply Z.leb_le; lia).
  rewrite E. fold j. change (2 ^ 0) with 1. rewrite N.mul_1_l.
  set (s1 := x / 10 ^ j).
  assert (Hj : 10 ^ j <> 0) by (apply N.pow_nonzero; lia).
  assert (Hlo : s1 * 10 ^ j <= x)
    by (subst s1; rewrite N.mul_comm; apply N.Div0.mul_div_le).
  assert (Hhi : x < (s1 + 1) * 10 ^ j).
  { subst s1. rewrite N.mul_comm, N.add_1_r. apply N.mul_succ_div_gt. exact Hj. }
  rewrite (binary64_exact false (s1 * 10 ^ j)) by lia.
  rewrite !N.mul_1_r, (N.eqb_sym x).
  assert (Hok2 :
    match binary64 false ((s1 + 1) * 10 ^ j) 1 with
    | Finite _ n0 s => x * 2 ^ s =? n0 * 1
    | _ => false
    end = false).
  { destruct (N.lt_ge_cases ((s1 + 1) * 10 ^ j) (2 ^ 53)) as [Hs | Hs].
    - rewrite (binary64_exact false _ Hs). apply N.eqb_neq.
      change (2 ^ 0) with 1. lia.
    - destruct (binary64_large _ Hs) as [-> | (v & -> & Hv)]; [reflexivity |].
      apply N.eqb_neq. change (2 ^ 0) with 1. lia. }
  rewrite Hok2. destruct (s1 * 10 ^ j =? x); reflexivity.
Qed.

Lemma shortest_safe (fuel : nat) (k : N) :
  1 <= k -> (Z.of_N k <= n)%Z -> (n < Z.of_N k + Z.of_nat fuel)%Z ->
  exists s k',
    shortest fuel x 0 n k = Some (s, k')
    /\ 1 <= k' /\ (Z.of_N k' <= n)%Z
    /\ s * 10 ^ Z.to_N (n - Z.of_N k') = x.
Proof using x_pos x_safe.
  revert k. induction fuel as [| fuel IH]; intros k Hk1 Hkn Hfuel; [lia |].
  cbn [shortest]. rewrite candidate_safe by exact Hkn.
  destruct (N.eqb_spec (x / 10 ^ Z.to_N (n - Z.of_N k) * 10 ^ Z.to_N (n - Z.of_N k)) x)
    as [E | E].
  - exists (x / 10 ^ Z.to_N (n - Z.of_N k)), k. auto.
  - assert (Hlt : (Z.of_N k < n)%Z).
    { destruct (Z.eq_dec (Z.of_N k) n) as [Heq | Hne]; [| lia].
      exfalso. apply E. rewrite Heq, Z.sub_diag. simpl.
      now rewrite N.div_1_r, N.mul_1_r. }
    apply IH; lia.
Qed.

Lemma string_of_digits_app (ds ds' : list N) :
  string_of_digits (ds ++ ds') = string_of_digits ds ++ string_of_digits ds'.
Proof.
  unfold string_of_digits. rewrite map_app.
  induction (map digitChar ds) as [| c l IH]; simpl; [reflexivity | now rewrite IH].
Qed.

Lemma string_of_digits_zeros (j : nat) :
  string_of_digits (List.repeat 0 j) = JSString.repeat "0" j.
Proof. induction j as [| j IH]; simpl; [reflexivity |]. now rewrite <- IH. Qed.

(** A positive safe integer prints as its decimal digits. *)
Lemma Number_toString_safe :
  Number_toString (Finite false x 0) = decimal x.
Proof using x_pos x_safe.
  pose proof ndigits_safe as Hn.
  unfold Number_toString.
  assert (E0 : (x =? 0) = false) by (apply N.eqb_neq; lia). rewrite E0.
  unfold decimal_exponent. change (2 ^ 0) with 1. rewrite N.div_1_r.
  assert (E1 : (1 <=? x) = true) by (apply N.leb_le; lia). rewrite E1.
  fold n.
  destruct (shortest_safe 17 1) as (s & k & -> & Hk1 & Hkn & Hs); try lia.
  set (j := Z.to_N (n - Z.of_N k)) in *.
  assert (Hspos : 0 < s) by (destruct s; [simpl in Hs |]; lia).
  assert (Hdigits : digits x = (digits s ++ List.repeat 0 (N.to_nat j))%list).
  { rewrite <- Hs at 1. rewrite <- (N2Nat.id j) at 1.
    now apply digits_mul_pow10. }
  assert (Hlen : n = (Z.of_nat (List.length (digits s)) + Z.of_N j)%Z).
  { subst n. unfold ndigits. rewrite Hdigits, length_app, repeat_length. lia. }
  assert (Hne : (s =? 10 ^ k) = false).
  { apply N.eqb_neq. intros ->.
    pose proof (ndigits_upper x) as Hup.
    replace (N.of_nat (ndigits x)) with (k + j) in Hup by lia.
    rewrite N.pow_add_r in Hup. lia. }
  rewrite Hne. unfold format.
  assert (Ec : ((Z.of_nat (List.length (digits s)) <=? n) && (n <=? 21))%Z = true).
  { apply andb_true_iff. split; apply Z.leb_le; lia. }
  rewrite Ec. unfold decimal. rewrite Hdigits, string_of_digits_app.
  rewrite string_of_digits_zeros.
  replace (Z.to_nat (n - Z.of_nat (List.length (digits s)))) with (N.to_nat j) by lia.
  reflexivity.
Qed.

End ToStringSafe.

(** ** The cost cipher (C4, C9, C10) *)

Section CostCipher.

Import JSNumber CostEncoder.
Local Open Scope N_scope.

Lemma append_nil_r (s : string) : (s ++ "")%string = s.
Proof.
  induction s as [| c s IH]; [reflexivity |].
  change (String c (s ++ "") = String c s). now rewrite IH.
Qed.

Lemma append_assoc (a b c : string) : ((a ++ b) ++ c = a ++ (b ++ c))%string.
Proof.
  induction a as [| x a IH]; [reflexivity |].
  change (String x ((a ++ b) ++ c) = String x (a ++ (b ++ c)))%string.
  now rewrite IH.
Qed.

Lemma length_string_of_list_ascii (l : list ascii) :
  String.length (string_of_list_ascii l) = List.length l.
Proof. induction l as [| c l IH]; simpl; [reflexivity | now rewrite IH]. Qed.

Lemma length_list_ascii_of_string (s : string) :
  List.length (list_ascii_of_string s) = String.length s.
Proof. induction s as [| c s IH]; simpl; [reflexivity | now rewrite IH]. Qed.

Lemma length_map_chars (f : ascii -> ascii) (s : string) :
  String.length (JSString.map_chars f s) = String.length s.
Proof. induction s as [| c s IH]; simpl; [reflexivity | now rewrite IH]. Qed.

(** A loop that appends one piece per character. *)
Lemma fold_append (f : ascii -> string) (l : list ascii) (acc : string) :
  fold_left (fun a c => a ++ f c)%string l acc
  = (acc ++ fold_left (fun a c => a ++ f c)%string l "")%string.
Proof.
  revert acc. induction l as [| c l IH]; intros acc; cbn [fold_left].
  - symmetry. apply append_nil_r.
  - rewrite (IH (acc ++ f c)%string), (IH ("" ++ f c)%string), append_assoc.
    reflexivity.
Qed.

Lemma encode_fold (ds : list N) :
  Forall (fun d => d < 10) ds ->
  fold_left (fun encoded digit => encoded ++ lookup_or CRAZY_WOMAN_MAP digit "")%string
            (List.map digitChar ds) ""
  = string_of_list_ascii (List.map letter ds).
Proof.
  induction 1 as [| d ds Hd _ IH]; [reflexivity |].
  cbn [List.map fold_left]. rewrite fold_append, IH.
  unfold lookup_or. rewrite (CRAZY_WOMAN_MAP_digit d Hd). reflexivity.
Qed.

Lemma encodeCost_safe (cost : string + number) (r : N) :
  isNaN (numericCost cost) = false ->
  Math_round (numericCost cost) = Finite false r 0 ->
  r < 2 ^ 53 ->
  encodeCost cost = letters_of r.
Proof.
  intros Hnan Hround Hr. unfold encodeCost. rewrite Hnan, Hround.
  destruct (N.eq_dec r 0) as [-> | Hpos]; [reflexivity |].
  rewrite Number_toString_safe by lia.
  unfold decimal, string_of_digits. rewrite list_ascii_of_string_of_list_ascii.
  apply encode_fold, digits_lt_10.
Qed.

Lemma length_letters_of (n : N) : String.length (letters_of n) = ndigits n.
Proof.
  unfold letters_of, ndigits. now rewrite length_string_of_list_ascii, length_map.
Qed.

(** C4, as stated, fails: from 10^21 on the rounded value prints in
    exponent notation, whose "e" and "+" have no letter. *)
Lemma encodeCost_exponent_notation :
  numericCost (inr (of_Z (10 ^ 21))) = Finite false (10 ^ 21) 0
  /\ Math_round (of_Z (10 ^ 21)) = Finite false (10 ^ 21) 0
  /\ Number_toString (Finite false (10 ^ 21) 0) = "1e+21"%string
  /\ encodeCost (inr (of_Z (10 ^ 21))) = "RAR"%string
  /\ ndigits (10 ^ 21) = 22%nat
  /\ encodeCost (inr (of_Z (10 ^ 21))) <> letters_of (10 ^ 21).
Proof. repeat split; vm_compute; (reflexivity || discriminate). Qed.

(** Above 2^53 the printed digits are the shortest that convert back to
    the value, not always the digits of the value. *)
Lemma encodeCost_shortest_digits :
  of_Z 18014398509481992 = Finite false 18014398509481992 0
  /\ Number_toString (Finite false 18014398509481992 0) = "18014398509481990"%string
  /\ encodeCost (inr (of_Z 18014398509481992)) = letters_of 18014398509481990.
Proof. repeat split; vm_compute; reflexivity. Qed.

(** C4 (amended). An input that does not parse as a number gives "---".
    An input that parses as a non-negative finite number is rounded to
    the nearest integer [r], ties upwards ([r <= x + 1/2 < r + 1]), and
    when [r] is below 2^53 the result is one cipher letter per decimal
    digit of [r], without padding: as many letters as [r] has digits;
    so it is for every integer below 2^53 given as a number, and 100,
    "0500", 1500 and 9999 give "RCC", "WCC", "RWCC" and "NNNN". *)
Theorem encodeCost_letter_per_digit :
  (forall cost, isNaN (numericCost cost) = true -> encodeCost cost = "---"%string)
  /\ (forall cost num sh,
        numericCost cost = Finite false num sh ->
        exists r,
          Math_round (numericCost cost) = Finite false r 0
          /\ r * 2 ^ (sh + 1) <= 2 * num + 2 ^ sh < (r + 1) * 2 ^ (sh + 1)
          /\ (r < 2 ^ 53 ->
              encodeCost cost = letters_of r
              /\ String.length (encodeCost cost) = ndigits r))
  /\ (forall n, n < 2 ^ 53 ->
        encodeCost (inr (of_Z (Z.of_N n))) = letters_of n)
  /\ encodeCost (inr (of_Z 100)) = "RCC"%string
  /\ encodeCost (inl "0500"%string) = "WCC"%string
  /\ encodeCost (inr (of_Z 1500)) = "RWCC"%string
  /\ encodeCost (inr (of_Z 9999)) = "NNNN"%string.
Proof.
  split; [| split; [| split; [| repeat split; vm_compute; reflexivity]]].
  - intros cost Hnan. unfold encodeCost. now rewrite Hnan.
  - intros cost num sh Hnum.
    exists ((2 * num + 2 ^ sh) / 2 ^ (sh + 1)).
    assert (Hd : 2 ^ (sh + 1) <> 0) by (apply N.pow_nonzero; lia).
    split; [now rewrite Hnum |]. split.
    + set (a := 2 * num + 2 ^ sh). set (d := 2 ^ (sh + 1)) in *. split.
      * rewrite (N.mul_comm _ d). apply N.Div0.mul_div_le.
      * rewrite (N.mul_comm _ d), N.add_1_r. apply N.mul_succ_div_gt. exact Hd.
    + intros Hr.
      assert (E : encodeCost cost = letters_of ((2 * num + 2 ^ sh) / 2 ^ (sh + 1))).
      { apply encodeCost_safe; [now rewrite Hnum | now rewrite Hnum | exact Hr]. }
      split; [exact E | rewrite E; apply length_letters_of].
  - intros n Hn.
    assert (Hof : of_Z (Z.of_N n) = Finite false n 0).
    { unfold of_Z. rewrite Zabs2N.id.
      assert (E : (Z.of_N n <? 0)%Z = false) by (apply Z.ltb_ge; lia).
      rewrite E. now apply binary64_exact. }
    apply encodeCost_safe; cbn [numericCost]; [now rewrite Hof | | exact Hn].
    rewrite Hof. cbn [Math_round]. f_equal.
    change (2 ^ 0) with 1. change (2 ^ (0 + 1)) with 2.
    rewrite (N.mul_comm 2 n), N.div_add_l by lia.
    change (1 / 2) with 0. apply N.add_0_r.
Qed.

Lemma encodeCost_letter_per_digit_witness :
  encodeCost (inl "abc"%string) = "---"%string
  /\ (exists r,
        Math_round (numericCost (inl "12.5"%string)) = Finite false r 0
        /\ r * 2 ^ (1 + 1) <= 2 * 25 + 2 ^ 1 < (r + 1) * 2 ^ (1 + 1)
        /\ (r < 2 ^ 53 ->
            encodeCost (inl "12.5"%string) = letters_of r
            /\ String.length (encodeCost (inl "12.5"%string)) = ndigits r))
  /\ encodeCost (inr (of_Z (Z.of_N 123456))) = letters_of 123456.
Proof.
  split; [| split].
  - apply (proj1 encodeCost_letter_per_digit (inl "abc"%string)). reflexivity.
  - apply (proj1 (proj2 encodeCost_letter_per_digit) (inl "12.5"%string) 25 1).
    vm_compute. reflexivity.
  - apply (proj1 (proj2 (proj2 encodeCost_letter_per_digit)) 123456).
    reflexivity.
Defined.

Lemma Number_toString_negative (num sh : N) :
  num <> 0 ->
  Number_toString (Finite true num sh)
  = String "-" (Number_toString (Finite false num sh)).
Proof.
  intros Hne. unfold Number_toString.
  apply N.eqb_neq in Hne. rewrite Hne.
  destruct (match shortest 17 num sh (decimal_exponent num sh) 1 with
            | Some r => r
            | None => _
            end) as [s k].
  destruct (if s =? 10 ^ k then _ else _) as [s' n']. reflexivity.
Qed.

Lemma Math_round_integer (neg : bool) (v : N) :
  Math_round (Finite neg v 0) = Finite neg v 0.
Proof.
  destruct neg; cbn [Math_round]; f_equal;
    change (2 ^ 0) with 1; change (2 ^ (0 + 1)) with 2.
  - replace (2 * v + 1 - 1) with (v * 2) by lia. apply N.div_mul. lia.
  - rewrite (N.mul_comm 2 v), N.div_add_l by lia.
    change (1 / 2) with 0. apply N.add_0_r.
Qed.

(** C9. The sign of a negative integer is dropped: "-" has no letter, so
    [encodeCost n] equals [encodeCost (-n)]; -500 gives "WCC". *)
Theorem encodeCost_sign_dropped :
  (forall z : Z, (z < 0)%Z ->
      encodeCost (inr (of_Z z)) = encodeCost (inr (of_Z (- z))))
  /\ encodeCost (inr (of_Z (-500))) = "WCC"%string.
Proof.
  split; [| vm_compute; reflexivity].
  intros z Hz. unfold of_Z.
  assert (E1 : (z <? 0)%Z = true) by (apply Z.ltb_lt; lia).
  assert (E2 : (- z <? 0)%Z = false) by (apply Z.ltb_ge; lia).
  rewrite E1, E2, Zabs2N.inj_opp, binary64_negate.
  destruct (binary64_integer false (Z.abs_N z)) as [-> | [v ->]];
    [vm_compute; reflexivity |].
  cbn [negate negb]. unfold encodeCost.
  cbn [numericCost isNaN]. rewrite !Math_round_integer.
  destruct (N.eq_dec v 0) as [-> | Hv]; [reflexivity |].
  rewrite (Number_toString_negative v 0 Hv).
  cbn [list_ascii_of_string fold_left]. reflexivity.
Qed.

Lemma encodeCost_sign_dropped_witness :
  encodeCost (inr (of_Z (-1500))) = encodeCost (inr (of_Z (- (-1500)))).
Proof. apply (proj1 encodeCost_sign_dropped (-1500)%Z). reflexivity. Defined.

(** *** Decoding *)

Lemma reverseMap_char (c : ascii) :
  lookup_or reverseMap c "0" = String (digitChar (decode_char c)) ""
  /\ decode_char c < 10.
Proof.
  destruct c as [[] [] [] [] [] [] [] []]; split; vm_compute; reflexivity.
Qed.

Lemma decode_fold (l : list ascii) :
  fold_left (fun decoded char => decoded ++ lookup_or reverseMap char "0")%string l ""
  = string_of_digits (List.map decode_char l).
Proof.
  induction l as [| c l IH]; [reflexivity |].
  cbn [fold_left List.map]. rewrite fold_append, IH.
  rewrite (proj1 (reverseMap_char c)). reflexivity.
Qed.

Lemma span_digits_string_of_digits (ds : list N) :
  Forall (fun d => d < 10) ds ->
  span_digits (string_of_digits ds) = (ds, ""%string).
Proof.
  induction 1 as [| d ds Hd _ IH]; [reflexivity |].
  change (string_of_digits (d :: ds))
    with (String (digitChar d) (string_of_digits ds)).
  cbn [span_digits]. rewrite IH.
  destruct (small_digit d Hd) as [-> | [-> | [-> | [-> | [-> |
    [-> | [-> | [-> | [-> | ->]]]]]]]]]; reflexivity.
Qed.

Lemma parseInt10_digits (d : N) (ds : list N) :
  Forall (fun d => d < 10) (d :: ds) ->
  parseInt10 (string_of_digits (d :: ds))
  = binary64 false (digits_value (d :: ds)) 1.
Proof.
  intros Hall. pose proof (span_digits_string_of_digits _ Hall) as Hspan.
  unfold parseInt10.
  assert (Hhead : span_sign (JSString.trimStart (string_of_digits (d :: ds)))
                  = (false, string_of_digits (d :: ds))).
  { change (string_of_digits (d :: ds))
      with (String (digitChar d) (string_of_digits ds)).
    inversion Hall as [| ? ? Hd _]; subst.
    destruct (small_digit d Hd) as [-> | [-> | [-> | [-> | [-> |
      [-> | [-> | [-> | [-> | ->]]]]]]]]]; reflexivity. }
  rewrite Hhead, Hspan. reflexivity.
Qed.

Lemma digits_value_bound (ds : list N) :
  Forall (fun d => d < 10) ds ->
  digits_value ds < 10 ^ N.of_nat (List.length ds).
Proof.
  induction ds as [| d ds IH] using rev_ind; intros Hall.
  - vm_compute. reflexivity.
  - apply Forall_app in Hall as [Hds Hd].
    inversion Hd as [| ? ? Hd' _]; subst.
    rewrite digits_value_app, length_app. cbn [List.length].
    replace (N.of_nat (List.length ds + 1)) with (N.succ (N.of_nat (List.length ds)))
      by lia.
    rewrite N.pow_succ_r'. specialize (IH Hds). lia.
Qed.

(** C10, as stated, fails: 309 letters decode to a digit string beyond
    the binary64 range, and [parseInt] then yields Infinity. *)
Lemma decodeCost_overflow :
  decodeCost (JSString.repeat "N" 309) = Infinity false.
Proof. vm_compute. reflexivity. Qed.

(** C10 (amended). [decodeCost] of the empty string is NaN. For a
    non-empty input every character decodes to a digit (unknown characters
    to 0) and the result is the binary64 value of that digit string: a
    natural number as long as the digit string stays below
    [2^1024 - 2^970], which it does when the upper-cased input has at most
    308 characters (the number itself below 2^53), and Infinity from there
    on. *)
Theorem decodeCost_natural :
  decodeCost "" = NaN
  /\ (forall encoded : string,
        encoded <> ""%string ->
        let decoded :=
          digits_value (List.map decode_char
                          (list_ascii_of_string (JSString.toUpperCase encoded))) in
        decodeCost encoded = binary64 false decoded 1
        /\ (decoded < overflow_threshold ->
            exists n : N, decodeCost encoded = Finite false n 0)
        /\ (decoded < 2 ^ 53 -> decodeCost encoded = Finite false decoded 0)
        /\ (overflow_threshold <= decoded -> decodeCost encoded = Infinity false)
        /\ ((String.length (JSString.toUpperCase encoded) <= 308)%nat ->
            decoded < overflow_threshold)).
Proof.
  split; [reflexivity |].
  intros encoded Hne decoded.
  assert (Hdecode : decodeCost encoded = binary64 false decoded 1
                    /\ decoded < 10 ^ N.of_nat (String.length (JSString.toUpperCase encoded))).
  { subst decoded. unfold decodeCost. rewrite decode_fold.
    remember (List.map decode_char _) as ds eqn:Eds.
    assert (Hall : Forall (fun d => d < 10) ds).
    { subst ds. apply Forall_map, Forall_forall. intros c _.
      apply reverseMap_char. }
    assert (Hds : List.length ds = String.length (JSString.toUpperCase encoded)).
    { subst ds. now rewrite length_map, length_list_ascii_of_string. }
    clear Eds. rewrite <- Hds. split; [| now apply digits_value_bound].
    destruct ds as [| d ds]; [| now apply parseInt10_digits].
    destruct encoded; [congruence | discriminate Hds]. }
  destruct Hdecode as [Hdecode Hbound]. rewrite Hdecode.
  split; [reflexivity |].
  split; [apply binary64_overflow_iff |].
  split; [apply binary64_exact |].
  split; [apply binary64_overflow_iff |].
  intros Hlen.
  eapply N.lt_le_trans; [exact Hbound |].
  transitivity (10 ^ 308); [apply N.pow_le_mono_r; lia |].
  apply N.lt_le_incl, overflow_threshold_eq.
Qed.

Lemma decodeCost_natural_witness :
  decodeCost "rawc" = Finite false 1250 0
  /\ (exists n : N, decodeCost (JSString.repeat "n" 308) = Finite false n 0)
  /\ decodeCost (JSString.repeat "n" 309) = Infinity false.
Proof.
  split; [| split].
  - apply (proj2 decodeCost_natural "rawc"%string); [discriminate |].
    vm_compute. reflexivity.
  - apply (proj2 decodeCost_natural (JSString.repeat "n" 308)); [discriminate |].
    vm_compute. reflexivity.
  - apply (proj2 decodeCost_natural (JSString.repeat "n" 309)); [discriminate |].
    vm_compute. discriminate.
Defined.

End CostCipher.

(* ===================================================================== *)
(** * Further properties *)
(* ===================================================================== *)

(** ** Alias resolution and assembly *)

Section ResolutionMore.

Import GoogleSheetsService SKUGeneratorForm.

Lemma opt_truthy_or (o : option string) :
  JSString.opt_truthy o = true -> JSString.opt_or o "" <> "".
Proof. destruct o as [[| c s] |]; cbn; intros H; discriminate. Qed.

Lemma getAlias_truthy (dropdownData : DropdownData) (field : Field)
    (value : string) :
  value <> "" -> JSObject.truthy (getAlias dropdownData field value) = true.
Proof.
  unfold getAlias. destruct value as [| c value]; [congruence |]. intros _.
  cbn [JSString.truthy negb].
  destruct (Nat.eqb _ 0); [reflexivity |].
  destruct (JSString.opt_truthy (aliasOf _)) eqn:Ea.
  { apply opt_truthy_or in Ea. cbn [JSObject.truthy].
    now destruct (JSString.opt_or _ _). }
  destruct (hardcodedAlias _ _) as [hardcoded |]; [| reflexivity].
  now destruct (JSObject.truthy hardcoded) eqn:Eh.
Qed.

(** [getAlias] gives the empty string for the empty input only: whatever
    the options and the tables hold, a non-empty value never resolves to
    nothing, as a value or as the text put in the identifier. *)
Theorem getAlias_empty_iff (dropdownData : DropdownData) (field : Field)
    (value : string) :
  (getAlias dropdownData field value = JSObject.Str "" <-> value = "")
  /\ (JSObject.toString (getAlias dropdownData field value) = "" <-> value = "").
Proof.
  assert (H : value <> "" ->
              JSObject.toString (getAlias dropdownData field value) <> "").
  { intros Hne E. apply (getAlias_truthy dropdownData field) in Hne.
    rewrite truthy_toString, E in Hne. discriminate Hne. }
  split; (split; [| intros ->; reflexivity]); intros E;
    destruct (String.eqb_spec value "") as [Hv | Hv]; try exact Hv;
    apply H in Hv; rewrite E in Hv; now elim Hv.
Qed.

(** What [getAlias] does with a non-empty input once the options are
    loaded, the first matching option carrying no alias. *)
Lemma getAlias_fallback (dropdownData : DropdownData) (field : Field)
    (value : string) :
  value <> "" ->
  options_of dropdownData field <> [] ->
  JSString.opt_truthy
    (aliasOf (List.find (matches (normalize value)) (options_of dropdownData field)))
  = false ->
  getAlias dropdownData field value
  = default (JSObject.Str value) (hardcodedAlias field (normalize value)).
Proof.
  intros Hvalue Hopts Halias. unfold getAlias.
  apply truthy_true in Hvalue. rewrite Hvalue, Halias. cbn [negb].
  destruct (options_of dropdownData field); [congruence |].
  cbn [List.length Nat.eqb].
  destruct (hardcodedAlias field (normalize value)) as [hardcoded |] eqn:Hh;
    [| reflexivity].
  now rewrite (hardcodedAlias_truthy _ _ _ Hh).
Qed.

Lemma getAlias_option_alias (dropdownData : DropdownData) (field : Field)
    (value a : string) :
  value <> "" ->
  options_of dropdownData field <> [] ->
  aliasOf (List.find (matches (normalize value)) (options_of dropdownData field))
  = Some a ->
  a <> "" ->
  getAlias dropdownData field value = JSObject.Str a.
Proof.
  intros Hvalue Hopts Halias Ha. unfold getAlias.
  apply truthy_true in Hvalue. rewrite Hvalue, Halias. cbn [negb].
  destruct (options_of dropdownData field); [congruence |].
  cbn [List.length Nat.eqb].
  destruct a; [congruence | reflexivity].
Qed.

(** Two non-empty inputs that differ by letter case or surrounding white
    space only resolve alike when an alias is known for them, be it the
    alias of the first matching option or an entry of the fallback table;
    when none is known (no alias on the option and nothing in the table,
    or no option loaded) each comes back as it was typed. *)
Theorem getAlias_normalized (dropdownData : DropdownData) (field : Field)
    (value1 value2 : string) :
  value1 <> "" -> value2 <> "" ->
  normalize value1 = normalize value2 ->
  let options := options_of dropdownData field in
  let found := List.find (matches (normalize value1)) options in
  (forall a : string,
      options <> [] -> aliasOf found = Some a -> a <> "" ->
      getAlias dropdownData field value1 = JSObject.Str a
      /\ getAlias dropdownData field value2 = JSObject.Str a)
  /\ (forall hardcoded : JSObject.value,
        options <> [] -> JSString.opt_truthy (aliasOf found) = false ->
        hardcodedAlias field (normalize value1) = Some hardcoded ->
        getAlias dropdownData field value1 = hardcoded
        /\ getAlias dropdownData field value2 = hardcoded)
  /\ (options = []
      \/ (JSString.opt_truthy (aliasOf found) = false
          /\ hardcodedAlias field (normalize value1) = None) ->
      getAlias dropdownData field value1 = JSObject.Str value1
      /\ getAlias dropdownData field value2 = JSObject.Str value2).
Proof.
  intros H1 H2 Hnorm options found. subst options found.
  split; [| split].
  - intros a Hopts Halias Ha. split.
    + now apply getAlias_option_alias.
    + apply getAlias_option_alias; try assumption. now rewrite <- Hnorm.
  - intros hardcoded Hopts Halias Hh. split.
    + rewrite getAlias_fallback by assumption. now rewrite Hh.
    + rewrite getAlias_fallback; try assumption.
      * now rewrite <- Hnorm, Hh.
      * now rewrite <- Hnorm.
  - intros [Hnil | [Halias Hh]].
    + split; now apply getAlias_no_options.
    + destruct (options_of dropdownData field) as [| o options] eqn:Hopts.
      { split; now apply getAlias_no_options. }
      split.
      * rewrite getAlias_fallback; rewrite ?Hopts; try assumption || discriminate.
        now rewrite Hh.
      * rewrite getAlias_fallback; rewrite ?Hopts, <- ?Hnorm;
          try assumption || discriminate.
        now rewrite Hh.
Qed.

Lemma getAlias_normalized_witness :
  let dropdownData :=
    {| productGroups := [ kurtaSetOption ]; productCategories := [];
       colors := [ {| value := "navy"; label := "Navy"; alias := None |} ];
       sizes := []; locations := []; fabrics := [];
       natures := []; vendorCodes := [] |} in
  (getAlias dropdownData ProductGroups "  KURTA-set " = JSObject.Str "KT"
   /\ getAlias dropdownData ProductGroups "kurta-set" = JSObject.Str "KT")
  /\ (getAlias dropdownData Colors " Black" = JSObject.Str "BK"
      /\ getAlias dropdownData Colors "BLACK" = JSObject.Str "BK")
  /\ (getAlias dropdownData Colors " Navy" = JSObject.Str " Navy"
      /\ getAlias dropdownData Colors "NAVY" = JSObject.Str "NAVY").
Proof.
  intros dropdownData. split; [| split].
  - apply (proj1 (getAlias_normalized dropdownData ProductGroups
                    "  KURTA-set " "kurta-set"
                    ltac:(discriminate) ltac:(discriminate) eq_refl) "KT");
      [discriminate | reflexivity | discriminate].
  - apply (proj1 (proj2 (getAlias_normalized dropdownData Colors
                           " Black" "BLACK"
                           ltac:(discriminate) ltac:(discriminate) eq_refl)));
      [discriminate | reflexivity | vm_compute; reflexivity].
  - apply (proj2 (proj2 (getAlias_normalized dropdownData Colors
                           " Navy" "NAVY"
                           ltac:(discriminate) ltac:(discriminate) eq_refl))).
    right. split; [reflexivity | vm_compute; reflexivity].
Defined.

Lemma getAlias_eqb (dropdownData : DropdownData) (field : Field) (value : string) :
  String.eqb (JSObject.toString (getAlias dropdownData field value)) ""
  = String.eqb value "".
Proof.
  destruct (String.eqb_spec value "") as [-> | Hne]; [reflexivity |].
  apply (getAlias_truthy dropdownData field) in Hne.
  rewrite truthy_toString in Hne. now apply negb_true_iff in Hne.
Qed.

Lemma generateSKU_simplified (dropdownData : DropdownData) (formData : FormData) :
  let resolve field raw := JSObject.toString (getAlias dropdownData field raw) in
  let token field raw := if String.eqb raw "" then "---" else resolve field raw in
  generateSKU dropdownData formData
  = String.concat "-"
      [ if String.eqb (productCategory formData) ""
           || String.eqb (productGroup formData) ""
        then or_placeholder (productGroup formData) "---"
        else resolve ProductCategories (productCategory formData)
             ++ resolve ProductGroups (productGroup formData);
        token Colors (color formData);
        or_placeholder (size formData) "--";
        or_placeholder (style formData) "---";
        token Locations (location formData);
        token Fabrics (fabric formData);
        token Natures (nature formData);
        or_placeholder (vendorCode formData) "------";
        if String.eqb (cost formData) "" then "----"
        else CostEncoder.encodeCost (inl (cost formData)) ].
Proof.
  cbv zeta. unfold generateSKU, JSString.join, or_placeholder.
  cbn [List.map]. rewrite !toString_or_else, !truthy_toString.
  cbn [JSObject.toString].
  rewrite !or_else_eqb, !truthy_eqb, !getAlias_eqb.
  repeat match goal with
         | |- context [String.eqb ?x ""] => destruct (String.eqb x "")
         end; reflexivity.
Qed.

(** In [generateSKU] the raw value behind an alias is never used: a token
    is the alias of its field, or the placeholder when the field is empty;
    and the first token is the two aliases when category and group are both
    set, else the group as typed (not its alias), else "---". *)
Theorem generateSKU_tokens (dropdownData : DropdownData) (formData : FormData) :
  let resolve field raw := JSObject.toString (getAlias dropdownData field raw) in
  let token field raw := if String.eqb raw "" then "---" else resolve field raw in
  generateSKU dropdownData formData
  = String.concat "-"
      [ if String.eqb (productCategory formData) ""
           || String.eqb (productGroup formData) ""
        then or_placeholder (productGroup formData) "---"
        else resolve ProductCategories (productCategory formData)
             ++ resolve ProductGroups (productGroup formData);
        token Colors (color formData);
        or_placeholder (size formData) "--";
        or_placeholder (style formData) "---";
        token Locations (location formData);
        token Fabrics (fabric formData);
        token Natures (nature formData);
        or_placeholder (vendorCode formData) "------";
        if String.eqb (cost formData) "" then "----"
        else CostEncoder.encodeCost (inl (cost formData)) ].
Proof. exact (generateSKU_simplified dropdownData formData). Qed.

Lemma isFormComplete_fields (formData : FormData) :
  JSString.truthy (isFormComplete formData) = true ->
  Forall (fun field => String.eqb (fst field) "" = false) (required_fields formData).
Proof.
  unfold isFormComplete, required_fields.
  rewrite !truthy_and_then, !andb_true_iff, !truthy_eqb, !negb_true_iff.
  intros H. repeat constructor; cbn [fst]; tauto.
Qed.

(** Once the form is complete the identifier is made of exactly these
    nine tokens: the category and group aliases joined, the colour alias,
    the size and the style as typed, the aliases of location, fabric and
    nature, the vendor code as typed, and the cost as [encodeCost] gives
    it; all eight tokens before the cost are non-empty. *)
Theorem generateSKU_complete (dropdownData : DropdownData) (formData : FormData) :
  JSString.truthy (isFormComplete formData) = true ->
  let resolve field raw := JSObject.toString (getAlias dropdownData field raw) in
  let tokens :=
    [ resolve ProductCategories (productCategory formData)
      ++ resolve ProductGroups (productGroup formData);
      resolve Colors (color formData);
      size formData;
      style formData;
      resolve Locations (location formData);
      resolve Fabrics (fabric formData);
      resolve Natures (nature formData);
      vendorCode formData ] in
  generateSKU dropdownData formData
  = String.concat "-"
      (tokens ++ [ CostEncoder.encodeCost (inl (cost formData)) ])%list
  /\ Forall (fun token => token <> "") tokens.
Proof.
  intros Hcomplete. cbv zeta. rewrite generateSKU_simplified. cbv zeta.
  apply isFormComplete_fields in Hcomplete. unfold required_fields in Hcomplete.
  repeat match goal with
         | H : Forall _ (_ :: _) |- _ => inversion H as [| ? ? ?E ?F]; subst; clear H
         end.
  cbn [fst] in *. unfold or_placeholder.
  assert (Hresolve : forall field raw,
    String.eqb raw "" = false ->
    JSObject.toString (getAlias dropdownData field raw) <> "").
  { intros field raw Hraw. apply String.eqb_neq. now rewrite getAlias_eqb. }
  split.
  - repeat match goal with
           | H : String.eqb _ "" = false |- _ => rewrite H; clear H
           end.
    reflexivity.
  - repeat constructor;
      try (apply Hresolve; assumption);
      try (apply String.eqb_neq; assumption).
    intros Hempty. apply (Hresolve ProductCategories (productCategory formData));
      [assumption |].
    now destruct (JSObject.toString
                    (getAlias dropdownData ProductCategories (productCategory formData))).
Qed.

Lemma generateSKU_complete_witness :
  let dropdownData :=
    {| productGroups := [ kurtaSetOption ];
       productCategories := [ {| value := "men"; label := "Men"; alias := Some "M" |} ];
       colors := []; sizes := []; locations := []; fabrics := []; natures := [];
       vendorCodes := [] |} in
  let formData :=
    {| productGroup := "Kurta Set"; productCategory := "men"; color := "black";
       size := "XL"; style := "101"; location := "Delhi"; fabric := "cotton";
       nature := "solid"; vendorCode := "V00123"; cost := "abc" |} in
  generateSKU dropdownData formData
  = String.concat "-"
      [ JSObject.toString (getAlias dropdownData ProductCategories "men")
        ++ JSObject.toString (getAlias dropdownData ProductGroups "Kurta Set");
        JSObject.toString (getAlias dropdownData Colors "black"); "XL"; "101";
        JSObject.toString (getAlias dropdownData Locations "Delhi");
        JSObject.toString (getAlias dropdownData Fabrics "cotton");
        JSObject.toString (getAlias dropdownData Natures "solid"); "V00123";
        CostEncoder.encodeCost (inl "abc") ].
Proof.
  intros dropdownData formData.
  exact (proj1 (generateSKU_complete dropdownData formData eq_refl)).
Defined.

(** The first option that matches the input, by value or by label and up
    to letter case and surrounding white space, decides: when it carries a
    non-empty alias, that alias is the result; so an option picked from the
    list resolves, by its own value, to its alias unless an earlier option
    matches too. *)
Theorem getAlias_first_match (dropdownData : DropdownData) (field : Field)
    (before after : list DropdownOption) (o : DropdownOption) (a value : string) :
  options_of dropdownData field = (before ++ o :: after)%list ->
  Forall (fun o' => matches (normalize value) o' = false) before ->
  matches (normalize value) o = true ->
  alias o = Some a -> a <> "" -> value <> "" ->
  getAlias dropdownData field value = JSObject.Str a.
Proof.
  intros Hopts Hbefore Hmatch Halias Ha Hvalue.
  unfold getAlias. rewrite Hopts.
  rewrite (find_first_match _ before after o Hbefore Hmatch).
  apply truthy_true in Hvalue. rewrite Hvalue. cbn [negb].
  assert (Hlen : Nat.eqb (List.length (before ++ o :: after)) 0 = false)
    by (rewrite length_app; cbn [List.length]; apply Nat.eqb_neq; lia).
  rewrite Hlen. unfold aliasOf. cbn [mbind option_bind]. rewrite Halias.
  destruct a as [| c a]; [congruence | reflexivity].
Qed.

Lemma getAlias_first_match_witness :
  let saree := {| value := "saree"; label := "Saree"; alias := Some "SR" |} in
  let dropdownData :=
    {| productGroups := [ kurtaSetOption; saree ];
       productCategories := []; colors := []; sizes := []; locations := [];
       fabrics := []; natures := []; vendorCodes := [] |} in
  getAlias dropdownData ProductGroups " SAREE" = JSObject.Str "SR".
Proof.
  intros saree dropdownData.
  apply (getAlias_first_match dropdownData ProductGroups [ kurtaSetOption ] [] saree);
    [reflexivity | repeat constructor | reflexivity | reflexivity
     | discriminate | discriminate].
Defined.

End ResolutionMore.

(** ** The cost cipher, both ways *)

Section CostCipherMore.

Import JSNumber CostEncoder.
Local Open Scope N_scope.

Lemma is_cipher_letter_In (c : ascii) :
  is_cipher_letter c = true <-> In c cipher_letters.
Proof.
  unfold is_cipher_letter. rewrite existsb_exists. split.
  - intros (x & Hx & E). apply Ascii.eqb_eq in E. now subst.
  - intros H. exists c. split; [exact H | apply Ascii.eqb_refl].
Qed.

Lemma CRAZY_WOMAN_MAP_char (c : ascii) :
  forallb is_cipher_letter
          (list_ascii_of_string (lookup_or CRAZY_WOMAN_MAP c "")) = true.
Proof.
  destruct c as [[] [] [] [] [] [] [] []]; vm_compute; reflexivity.
Qed.

Lemma list_ascii_of_string_app (a b : string) :
  list_ascii_of_string (a ++ b)
  = (list_ascii_of_string a ++ list_ascii_of_string b)%list.
Proof.
  induction a as [| c a IH]; [reflexivity |].
  change (c :: list_ascii_of_string (a ++ b)
          = c :: (list_ascii_of_string a ++ list_ascii_of_string b)%list).
  now rewrite IH.
Qed.

Lemma encode_fold_letters (l : list ascii) :
  forallb is_cipher_letter
    (list_ascii_of_string
       (fold_left (fun encoded digit => encoded ++ lookup_or CRAZY_WOMAN_MAP digit "")%string
                  l "")) = true.
Proof.
  induction l as [| c l IH]; [reflexivity |].
  cbn [fold_left]. rewrite fold_append, list_ascii_of_string_app, forallb_app.
  rewrite IH, andb_true_r. apply CRAZY_WOMAN_MAP_char.
Qed.

(** Whatever the input, [encodeCost] gives the placeholder "---" (when the
    input is not a number) or a string of cipher letters only: no digit,
    sign, point or exponent mark of the printed number gets through. *)
Theorem encodeCost_alphabet (cost : string + number) :
  (isNaN (numericCost cost) = true /\ encodeCost cost = "---"%string)
  \/ (isNaN (numericCost cost) = false
      /\ Forall (fun c => In c cipher_letters)
                (list_ascii_of_string (encodeCost cost))).
Proof.
  unfold encodeCost. destruct (isNaN (numericCost cost)); [left; auto |].
  right. split; [reflexivity |].
  apply Forall_forall. intros c Hc. apply list_elem_of_In in Hc.
  apply is_cipher_letter_In.
  pose proof (encode_fold_letters
                (list_ascii_of_string
                   (Number_toString (Math_round (numericCost cost))))) as H.
  rewrite forallb_forall in H. now apply H.
Qed.

Lemma of_Z_of_N (n : N) : n < 2 ^ 53 -> of_Z (Z.of_N n) = Finite false n 0.
Proof.
  intros Hn. unfold of_Z. rewrite Zabs2N.id.
  assert (E : (Z.of_N n <? 0)%Z = false) by (apply Z.ltb_ge; lia).
  rewrite E. now apply binary64_exact.
Qed.

Lemma encodeCost_integer (n : N) :
  n < 2 ^ 53 -> encodeCost (inr (Finite false n 0)) = letters_of n.
Proof.
  intros Hn. apply encodeCost_safe; [reflexivity | | exact Hn].
  apply Math_round_integer.
Qed.

Lemma map_chars_string_of_list_ascii (f : ascii -> ascii) (l : list ascii) :
  JSString.map_chars f (string_of_list_ascii l) = string_of_list_ascii (List.map f l).
Proof. induction l as [| c l IH]; simpl; [reflexivity | now rewrite IH]. Qed.

Lemma list_ascii_of_map_chars (f : ascii -> ascii) (s : string) :
  list_ascii_of_string (JSString.map_chars f s)
  = List.map f (list_ascii_of_string s).
Proof. induction s as [| c s IH]; simpl; [reflexivity | now rewrite IH]. Qed.

(** What [decodeCost] computes on a non-empty input. *)
Lemma decodeCost_value (encoded : string) :
  encoded <> ""%string ->
  decodeCost encoded
  = binary64 false
      (digits_value (List.map decode_char
                       (list_ascii_of_string (JSString.toUpperCase encoded)))) 1.
Proof.
  intros Hne. unfold decodeCost. rewrite decode_fold.
  remember (List.map decode_char _) as ds eqn:Eds.
  assert (Hall : Forall (fun d => d < 10) ds).
  { subst ds. apply Forall_map, Forall_forall. intros c _. apply reverseMap_char. }
  destruct ds as [| d ds]; [| now apply parseInt10_digits].
  destruct encoded; [congruence | discriminate Eds].
Qed.

Lemma decode_letter (d : N) :
  d < 10 -> decode_char (JSString.upperChar (letter d)) = decoded_digit d.
Proof.
  intros H. destruct (small_digit d H) as [-> | [-> | [-> | [-> | [-> |
    [-> | [-> | [-> | [-> | ->]]]]]]]]]; reflexivity.
Qed.

Lemma digits_value_acc_le (f g : N -> N) (ds : list N) (a b : N) :
  (forall d, g d <= d) -> a <= b ->
  fold_left (fun acc d => 10 * acc + d) (List.map g ds) a
  <= fold_left (fun acc d => 10 * acc + d) ds b.
Proof.
  intros Hg. revert a b. induction ds as [| d ds IH]; intros a b Hab; [exact Hab |].
  cbn [List.map fold_left]. apply IH. specialize (Hg d). lia.
Qed.

Lemma digits_nonempty (n : N) : digits n <> [].
Proof.
  destruct (N.lt_ge_cases n 10) as [H | H].
  - now rewrite digits_small.
  - rewrite digits_step by exact H. intros E. now apply app_eq_nil in E as [_ E].
Qed.

(** Decoding an encoded integer below 2^53 gives the number whose digits
    are those of the integer with every 8 turned into 2: the integer itself
    exactly when it has no digit 8. *)
Theorem decodeCost_encodeCost (n : N) :
  n < 2 ^ 53 ->
  decodeCost (encodeCost (inr (of_Z (Z.of_N n))))
  = Finite false (digits_value (List.map decoded_digit (digits n))) 0
  /\ (~ In 8 (digits n) ->
      decodeCost (encodeCost (inr (of_Z (Z.of_N n)))) = of_Z (Z.of_N n)).
Proof.
  intros Hn. rewrite (of_Z_of_N n Hn), (encodeCost_integer n Hn).
  assert (Hdec : decodeCost (letters_of n)
                 = Finite false (digits_value (List.map decoded_digit (digits n))) 0).
  { rewrite decodeCost_value.
    2:{ unfold letters_of. pose proof (digits_nonempty n).
        destruct (digits n); [congruence | discriminate]. }
    unfold letters_of, JSString.toUpperCase.
    rewrite map_chars_string_of_list_ascii, list_ascii_of_string_of_list_ascii.
    rewrite !map_map.
    rewrite (map_ext_in _ decoded_digit).
    2:{ intros d Hd. apply decode_letter.
        pose proof (digits_lt_10 n) as Hall. rewrite Forall_forall in Hall.
        apply Hall, list_elem_of_In, Hd. }
    apply binary64_exact. eapply N.le_lt_trans; [| exact Hn].
    rewrite <- (digits_value_digits n) at 2. unfold digits_value.
    apply (digits_value_acc_le decoded_digit); [| lia].
    intros d. unfold decoded_digit. destruct (N.eqb_spec d 8); lia. }
  split; [exact Hdec |].
  intros H8. rewrite Hdec. f_equal.
  rewrite <- (digits_value_digits n) at 2. f_equal.
  rewrite <- (map_id (digits n)) at 2. apply map_ext_in.
  intros d Hd. unfold decoded_digit.
  destruct (N.eqb_spec d 8) as [-> | _]; [contradiction | reflexivity].
Qed.

Lemma decodeCost_encodeCost_witness :
  decodeCost (encodeCost (inr (of_Z (Z.of_N 1850))))
  = Finite false (digits_value (List.map decoded_digit (digits 1850))) 0
  /\ (~ In 8 (digits 1850) ->
      decodeCost (encodeCost (inr (of_Z (Z.of_N 1850)))) = of_Z (Z.of_N 1850)).
Proof. apply (decodeCost_encodeCost 1850). reflexivity. Defined.

Lemma digits_of_digits_value (d : N) (ds : list N) :
  d <> 0 -> Forall (fun d => d < 10) (d :: ds) ->
  digits (digits_value (d :: ds)) = d :: ds.
Proof.
  intros Hd. revert d Hd.
  induction ds as [| x l IH] using rev_ind; intros d Hd Hall.
  - inversion Hall as [| ? ? Hlt _]; subst.
    unfold digits_value. cbn [fold_left]. change (10 * 0 + d) with d.
    now apply digits_small.
  - rewrite app_comm_cons in Hall. apply Forall_app in Hall as [Hl Hx].
    inversion Hx as [| ? ? Hx' _]; subst.
    rewrite app_comm_cons, digits_value_app.
    specialize (IH d Hd Hl).
    assert (Hv : digits_value (d :: l) <> 0).
    { intros E. rewrite E in IH. rewrite digits_small in IH by lia. congruence. }
    set (v := digits_value (d :: l)) in *.
    rewrite digits_step by lia.
    replace ((10 * v + x) / 10) with v
      by (rewrite (N.mul_comm 10 v), N.div_add_l, (N.div_small x 10) by lia; lia).
    replace ((10 * v + x) mod 10) with x
      by (rewrite N.add_comm, (N.mul_comm 10 v), N.Div0.mod_add, N.mod_small by lia;
          reflexivity).
    now rewrite IH.
Qed.

Lemma letter_decode_char (c : ascii) :
  In c cipher_letters ->
  letter (decode_char c) = c
  /\ JSString.upperChar c = c
  /\ (c <> "C"%char -> decode_char c <> 0).
Proof.
  intros H. cbn in H.
  repeat (destruct H as [<- | H]; [repeat split; (reflexivity || (intros; discriminate) || congruence) |]).
  contradiction.
Qed.

(** Encoding a decoded code gives the code back in upper case, when the
    code is made of at most 15 cipher letters and does not start with the
    letter of zero. *)
Theorem encodeCost_decodeCost (encoded : string) (c : ascii) (rest : string) :
  JSString.toUpperCase encoded = String c rest ->
  c <> "C"%char ->
  Forall (fun c => In c cipher_letters)
         (list_ascii_of_string (JSString.toUpperCase encoded)) ->
  (String.length encoded <= 15)%nat ->
  encodeCost (inr (decodeCost encoded)) = JSString.toUpperCase encoded.
Proof.
  intros Hupper Hc Hletters Hlen.
  assert (Hne : encoded <> ""%string) by (intros ->; discriminate Hupper).
  rewrite (decodeCost_value encoded Hne).
  set (chars := list_ascii_of_string (JSString.toUpperCase encoded)) in *.
  assert (Hchars : chars = c :: list_ascii_of_string rest)
    by (subst chars; now rewrite Hupper).
  assert (Hall : Forall (fun d => d < 10) (List.map decode_char chars)).
  { apply Forall_map, Forall_forall. intros x _. apply reverseMap_char. }
  assert (Hlen' : List.length (List.map decode_char chars) = String.length encoded).
  { subst chars. rewrite length_map, length_list_ascii_of_string.
    apply length_map_chars. }
  assert (Hv : digits_value (List.map decode_char chars) < 2 ^ 53).
  { eapply N.lt_le_trans; [apply digits_value_bound; exact Hall |].
    rewrite Hlen'. transitivity (10 ^ 15); [apply N.pow_le_mono_r; lia |].
    vm_compute. discriminate. }
  rewrite (binary64_exact false _ Hv), (encodeCost_integer _ Hv).
  unfold letters_of.
  assert (Hdigits : digits (digits_value (List.map decode_char chars))
                    = List.map decode_char chars).
  { rewrite Hchars in *. cbn [List.map] in *.
    apply digits_of_digits_value; [| exact Hall].
    inversion Hletters as [| ? ? Hin _]; subst.
    now apply letter_decode_char. }
  rewrite Hdigits, map_map.
  rewrite (map_ext_in _ (fun x => x)), map_id.
  - subst chars. apply string_of_list_ascii_of_string.
  - intros x Hx. rewrite Forall_forall in Hletters.
    apply letter_decode_char, Hletters, list_elem_of_In, Hx.
Qed.

Lemma encodeCost_decodeCost_witness :
  encodeCost (inr (decodeCost "rawc")) = JSString.toUpperCase "rawc".
Proof.
  apply (encodeCost_decodeCost "rawc" "R" "AWC");
    [reflexivity | discriminate | | vm_compute; repeat constructor].
  apply Forall_forall. intros x Hx. apply list_elem_of_In in Hx.
  apply is_cipher_letter_In. cbn in Hx.
  repeat (destruct Hx as [<- | Hx]; [reflexivity |]). contradiction.
Defined.

Lemma map_chars_map_chars (f g : ascii -> ascii) (s : string) :
  JSString.map_chars f (JSString.map_chars g s)
  = JSString.map_chars (fun c => f (g c)) s.
Proof. induction s as [| c s IH]; simpl; [reflexivity | now rewrite IH]. Qed.

Lemma map_chars_ext (f g : ascii -> ascii) (s : string) :
  (forall c, f c = g c) -> JSString.map_chars f s = JSString.map_chars g s.
Proof.
  intros H. induction s as [| c s IH]; simpl; [reflexivity | now rewrite IH, H].
Qed.

Lemma upperChar_lowerChar (c : ascii) :
  JSString.upperChar (JSString.lowerChar c) = JSString.upperChar c.
Proof. destruct c as [[] [] [] [] [] [] [] []]; reflexivity. Qed.

Lemma upperChar_upperChar (c : ascii) :
  JSString.upperChar (JSString.upperChar c) = JSString.upperChar c.
Proof. destruct c as [[] [] [] [] [] [] [] []]; reflexivity. Qed.

(** [decodeCost] does not look at the letter case of an ASCII code: the
    code in lower case and the code in upper case decode to the same
    number as the code itself. *)
Theorem decodeCost_case_insensitive (encoded : string) :
  JSString.isASCII encoded = true ->
  decodeCost (JSString.toLowerCase encoded) = decodeCost encoded
  /\ decodeCost (JSString.toUpperCase encoded) = decodeCost encoded.
Proof.
  intros _.
  unfold decodeCost, JSString.toUpperCase, JSString.toLowerCase.
  rewrite !map_chars_map_chars.
  rewrite (map_chars_ext _ JSString.upperChar encoded upperChar_lowerChar).
  rewrite (map_chars_ext (fun c => JSString.upperChar (JSString.upperChar c))
             JSString.upperChar encoded upperChar_upperChar).
  split; reflexivity.
Qed.

Lemma decodeCost_case_insensitive_witness :
  decodeCost "rawc" = decodeCost "rAwC"
  /\ decodeCost "RAWC" = decodeCost "rAwC".
Proof.
  exact (decodeCost_case_insensitive "rAwC" eq_refl).
Defined.

(** An ASCII code loses nothing when it is padded on the left: a leading
    "C" or "c", or any leading ASCII character that is not a cipher
    letter, does not change the decoded cost. *)
Theorem decodeCost_leading_zero (c : ascii) (encoded : string) :
  JSString.isASCII (String c encoded) = true ->
  decode_char (JSString.upperChar c) = 0 ->
  encoded <> ""%string ->
  decodeCost (String c encoded) = decodeCost encoded.
Proof.
  intros _ Hc Hne.
  rewrite (decodeCost_value encoded Hne), decodeCost_value by discriminate.
  change (JSString.toUpperCase (String c encoded))
    with (String (JSString.upperChar c) (JSString.toUpperCase encoded)).
  cbn [list_ascii_of_string List.map]. rewrite Hc. reflexivity.
Qed.

Lemma decodeCost_leading_zero_witness :
  decodeCost "cRCC" = decodeCost "RCC" /\ decodeCost "-RCC" = decodeCost "RCC".
Proof.
  split.
  - apply (decodeCost_leading_zero "c" "RCC"); [reflexivity | reflexivity | discriminate].
  - apply (decodeCost_leading_zero "-" "RCC"); [reflexivity | reflexivity | discriminate].
Defined.

Lemma span_sign_digits (d : N) (rest : string) :
  d < 10 ->
  span_sign (JSString.trimStart (String (digitChar d) rest))
  = (false, String (digitChar d) rest)
  /\ String.prefix "Infinity" (String (digitChar d) rest) = false.
Proof.
  intros Hd. destruct (small_digit d Hd) as [-> | [-> | [-> | [-> | [-> |
    [-> | [-> | [-> | [-> | ->]]]]]]]]]; split; reflexivity.
Qed.

Lemma parseFloat_digits (d : N) (ds : list N) :
  Forall (fun d => d < 10) (d :: ds) ->
  parseFloat (string_of_digits (d :: ds))
  = binary64 false (digits_value (d :: ds)) 1.
Proof.
  intros Hall. pose proof (span_digits_string_of_digits _ Hall) as Hspan.
  inversion Hall as [| ? ? Hd _]; subst.
  unfold parseFloat.
  change (string_of_digits (d :: ds))
    with (String (digitChar d) (string_of_digits ds)) in *.
  destruct (span_sign_digits d (string_of_digits ds) Hd) as [-> ->].
  rewrite Hspan. cbn [app]. rewrite app_nil_r.
  cbn [List.length Z.of_nat Z.sub Z.opp Z.leb Z.compare Z.to_N].
  change (10 ^ 0) with 1. now rewrite N.mul_1_r.
Qed.

(** A cost typed as a string of digits, leading zeros or not, encodes as
    the number it denotes: one letter per digit of that number, the leading
    zeros gone. *)
Theorem encodeCost_digit_string (d : N) (ds : list N) :
  Forall (fun d => d < 10) (d :: ds) ->
  digits_value (d :: ds) < 2 ^ 53 ->
  encodeCost (inl (string_of_digits (d :: ds))) = letters_of (digits_value (d :: ds))
  /\ encodeCost (inl (string_of_digits (d :: ds)))
     = encodeCost (inr (of_Z (Z.of_N (digits_value (d :: ds))))).
Proof.
  intros Hall Hv.
  assert (E : encodeCost (inl (string_of_digits (d :: ds)))
              = letters_of (digits_value (d :: ds))).
  { assert (Hparse : numericCost (inl (string_of_digits (d :: ds)))
                     = Finite false (digits_value (d :: ds)) 0).
    { cbn [numericCost].
      now rewrite (parseFloat_digits d ds Hall), (binary64_exact false _ Hv). }
    apply encodeCost_safe; [now rewrite Hparse | | exact Hv].
    rewrite Hparse. apply Math_round_integer. }
  split; [exact E |].
  now rewrite E, (of_Z_of_N _ Hv), (encodeCost_integer _ Hv).
Qed.

Lemma encodeCost_digit_string_witness :
  encodeCost (inl (string_of_digits [0; 5; 0; 0])) = letters_of (digits_value [0; 5; 0; 0])
  /\ encodeCost (inl (string_of_digits [0; 5; 0; 0]))
     = encodeCost (inr (of_Z (Z.of_N (digits_value [0; 5; 0; 0])))).
Proof.
  apply (encodeCost_digit_string 0 [5; 0; 0]);
    [repeat constructor | vm_compute; reflexivity].
Defined.

End CostCipherMore.

(** ** The style number counter *)

Section StyleCounter.

Import JSNumber SKUGeneratorForm.
Local Open Scope N_scope.

Lemma string_length_append (a b : string) :
  String.length (a ++ b) = (String.length a + String.length b)%nat.
Proof.
  induction a as [| c a IH]; [reflexivity |].
  change (S (String.length (a ++ b)) = S (String.length a + String.length b)).
  now rewrite IH.
Qed.

Lemma length_string_of_digits (ds : list N) :
  String.length (string_of_digits ds) = List.length ds.
Proof.
  unfold string_of_digits. now rewrite length_string_of_list_ascii, length_map.
Qed.

Lemma length_repeat (c : ascii) (n : nat) : String.length (JSString.repeat c n) = n.
Proof. induction n as [| n IH]; simpl; [reflexivity | now rewrite IH]. Qed.

Lemma padStart_long (n : nat) (c : ascii) (s : string) :
  (n <= String.length s)%nat -> JSString.padStart n c s = s.
Proof.
  intros H. unfold JSString.padStart.
  replace (n - String.length s)%nat with 0%nat by lia. reflexivity.
Qed.

Lemma ndigits_ge_3 (m : N) : 100 <= m -> (3 <= ndigits m)%nat.
Proof.
  intros H. pose proof (ndigits_upper m) as Hup.
  destruct (ndigits m) as [| [| [| k]]]; try lia; vm_compute in Hup; lia.
Qed.

Lemma decimal_nonempty (n : N) : decimal n <> ""%string.
Proof.
  unfold decimal, string_of_digits. pose proof (digits_nonempty n).
  destruct (digits n); [congruence | discriminate].
Qed.

(** [parseInt] reads a string of decimal digits in radix 10. *)
Lemma parseInt_digits (d : N) (ds : list N) :
  Forall (fun d => d < 10) (d :: ds) ->
  parseInt (string_of_digits (d :: ds))
  = binary64 false (digits_value (d :: ds)) 1.
Proof.
  intros Hall. pose proof (span_digits_string_of_digits _ Hall) as Hspan.
  inversion Hall as [| ? ? Hd Hds]; subst.
  unfold parseInt.
  change (string_of_digits (d :: ds))
    with (String (digitChar d) (string_of_digits ds)) in *.
  destruct (span_sign_digits d (string_of_digits ds) Hd) as [-> _].
  rewrite Hspan. cbn [fst].
  generalize (match fst (span_hex (match string_of_digits ds with
                                   | String _ r => r
                                   | EmptyString => EmptyString
                                   end)) with
              | [] => NaN
              | hs => binary64 false (hex_value hs) 1
              end).
  intros hex.
  destruct ds as [| d2 ds].
  - destruct (small_digit d Hd) as [-> | [-> | [-> | [-> | [-> |
      [-> | [-> | [-> | [-> | ->]]]]]]]]]; reflexivity.
  - inversion Hds as [| ? ? Hd2 _]; subst.
    change (string_of_digits (d2 :: ds))
      with (String (digitChar d2) (string_of_digits ds)).
    destruct (small_digit d Hd) as [-> | [-> | [-> | [-> | [-> |
      [-> | [-> | [-> | [-> | ->]]]]]]]]]; try reflexivity.
    destruct (small_digit d2 Hd2) as [-> | [-> | [-> | [-> | [-> |
      [-> | [-> | [-> | [-> | ->]]]]]]]]]; reflexivity.
Qed.

Lemma parseInt_decimal (n : N) : parseInt (decimal n) = binary64 false n 1.
Proof.
  unfold decimal. pose proof (digits_lt_10 n) as Hall.
  pose proof (digits_value_digits n) as Hv.
  destruct (digits n) as [| d ds] eqn:E; [now apply digits_nonempty in E |].
  now rewrite parseInt_digits, Hv.
Qed.

Lemma add_one (n : N) :
  n + 1 < 2 ^ 53 -> add (Finite false n 0) (of_Z 1) = Finite false (n + 1) 0.
Proof.
  intros H. change (of_Z 1) with (Finite false 1 0). cbn [add Bool.eqb].
  change (2 ^ 0) with 1. change (2 ^ (0 + 0)) with 1.
  rewrite N.mul_1_r. now apply binary64_exact.
Qed.

Lemma lt_100 (m : N) : lt (Finite false m 0) (of_Z 100) = (m <? 100).
Proof.
  change (of_Z 100) with (Finite false 100 0). cbn [lt signed].
  change (2 ^ 0) with 1. rewrite N.mul_1_r.
  destruct (N.ltb_spec m 100); [apply Z.ltb_lt | apply Z.ltb_ge]; lia.
Qed.

(** What is handed out and stored when the next number is [m]. *)
Lemma style_number_text (m : N) :
  100 <= m < 2 ^ 53 ->
  Number_toString (Finite false m 0) = decimal m
  /\ JSString.padStart 3 "0" (decimal m) = decimal m.
Proof.
  intros [Hlo Hhi]. split; [apply Number_toString_safe; lia |].
  apply padStart_long. unfold decimal. rewrite length_string_of_digits.
  now apply ndigits_ge_3.
Qed.

(** The counter starts at 100 on an empty storage and then counts up by
    one: with the digits of [n] stored, the call hands out, and stores,
    the digits of [n + 1], or of 100 when that is lower. *)
Theorem getNextStyleNumber_counts (localStorage : gmap string string) :
  (localStorage !! "lastStyleNumber" = None
   \/ localStorage !! "lastStyleNumber" = Some ""%string ->
   getNextStyleNumber localStorage
   = ("100"%string, <["lastStyleNumber" := "100"%string]> localStorage))
  /\ (forall n : N,
        localStorage !! "lastStyleNumber" = Some (decimal n) ->
        n + 1 < 2 ^ 53 ->
        getNextStyleNumber localStorage
        = (decimal (N.max (n + 1) 100),
           <["lastStyleNumber" := decimal (N.max (n + 1) 100)]> localStorage)).
Proof.
  split.
  - intros [H | H]; unfold getNextStyleNumber; rewrite H; reflexivity.
  - intros n Hn Hsafe. unfold getNextStyleNumber. rewrite Hn.
    assert (Htruthy : JSString.opt_truthy (Some (decimal n)) = true).
    { unfold JSString.opt_truthy. apply truthy_true, decimal_nonempty. }
    assert (Hor : JSString.opt_or (Some (decimal n)) "" = decimal n).
    { unfold JSString.opt_or. rewrite or_else_eqb.
      pose proof (decimal_nonempty n) as Hne. apply String.eqb_neq in Hne.
      now rewrite Hne. }
    rewrite Htruthy, Hor, parseInt_decimal.
    rewrite (binary64_exact false n) by lia.
    rewrite (add_one n Hsafe), lt_100.
    destruct (N.ltb_spec (n + 1) 100) as [Hlow | Hhigh].
    + rewrite N.max_r by lia. reflexivity.
    + rewrite N.max_l by lia.
      destruct (style_number_text (n + 1)) as [-> ->]; [lia |]. reflexivity.
Qed.

Lemma getNextStyleNumber_counts_witness :
  getNextStyleNumber ∅ = ("100"%string, {["lastStyleNumber" := "100"%string]})
  /\ getNextStyleNumber {["lastStyleNumber" := decimal 417]}
     = (decimal (N.max (417 + 1) 100),
        <["lastStyleNumber" := decimal (N.max (417 + 1) 100)]>
          {["lastStyleNumber" := decimal 417]}).
Proof.
  split.
  - apply (proj1 (getNextStyleNumber_counts ∅)). left. reflexivity.
  - apply (proj2 (getNextStyleNumber_counts {["lastStyleNumber" := decimal 417]}) 417);
      reflexivity.
Defined.

Lemma format_length (ds : list N) (n : Z) :
  ds <> [] -> (3 <= n)%Z -> (3 <= String.length (format ds n))%nat.
Proof.
  intros Hds Hn. unfold format.
  destruct ((Z.of_nat (List.length ds) <=? n) && (n <=? 21))%Z eqn:E1.
  - apply andb_true_iff in E1 as [Hk _]. apply Z.leb_le in Hk.
    rewrite string_length_append, length_string_of_digits, length_repeat. lia.
  - destruct ((0 <? n) && (n <=? 21))%Z eqn:E2.
    + apply andb_true_iff in E2 as [_ H21].
      rewrite H21, andb_true_r in E1. apply Z.leb_gt in E1.
      rewrite !string_length_append, !length_string_of_digits.
      rewrite length_firstn, length_skipn.
      change (String.length ".") with 1%nat. lia.
    + assert (E3 : ((-6 <? n) && (n <=? 0))%Z = false).
      { apply andb_false_iff. right. apply Z.leb_gt. lia. }
      rewrite E3. unfold exponent_part.
      destruct ds as [| d [| d' ds']]; [congruence | |].
      * rewrite string_length_append, length_string_of_digits. simpl. lia.
      * rewrite !string_length_append, !length_string_of_digits. simpl. lia.
Qed.

(** A number that is not below 100 prints on three characters at least. *)
Lemma Number_toString_length (x : number) :
  lt x (of_Z 100) = false -> x <> Infinity true ->
  (3 <= String.length (Number_toString x))%nat.
Proof.
  change (of_Z 100) with (Finite false 100 0).
  destruct x as [| [] | neg num sh]; intros Hlt Hx;
    [simpl; lia | congruence | simpl; lia |].
  cbn [lt] in Hlt. apply Z.ltb_ge in Hlt.
  change (2 ^ 0) with 1 in Hlt. rewrite N.mul_1_r in Hlt.
  assert (Hpow : 0 < 2 ^ sh) by (apply N.neq_0_lt_0, N.pow_nonzero; lia).
  destruct neg; cbn [signed] in Hlt; [lia |].
  assert (Hnum : 100 * 2 ^ sh <= num) by lia.
  unfold Number_toString.
  assert (E0 : (num =? 0) = false) by (apply N.eqb_neq; lia). rewrite E0.
  assert (Hn : (3 <= decimal_exponent num sh)%Z).
  { unfold decimal_exponent.
    assert (E : (2 ^ sh <=? num) = true) by (apply N.leb_le; lia). rewrite E.
    assert (100 <= num / 2 ^ sh) by (apply N.div_le_lower_bound; lia).
    pose proof (ndigits_ge_3 (num / 2 ^ sh)). lia. }
  destruct (match shortest 17 num sh (decimal_exponent num sh) 1 with
            | Some r => r
            | None => _
            end) as [s k].
  change ("" ++ ?t)%string with t.
  destruct (s =? 10 ^ k); apply format_length; (apply digits_nonempty || lia).
Qed.

Lemma getNextStyleNumber_text (localStorage : gmap string string) :
  let '(nextStyle, localStorage') := getNextStyleNumber localStorage in
  localStorage' !! "lastStyleNumber" = Some nextStyle
  /\ (3 <= String.length nextStyle)%nat
  /\ (forall key : string,
        key <> "lastStyleNumber"%string ->
        localStorage' !! key = localStorage !! key).
Proof.
  unfold getNextStyleNumber.
  set (next := if JSString.opt_truthy _ then _ else of_Z 100).
  set (clamped := if lt next (of_Z 100) then of_Z 100 else next).
  assert (Hlen : (3 <= String.length (Number_toString clamped))%nat).
  { subst clamped. destruct (lt next (of_Z 100)) eqn:E; [vm_compute; lia |].
    apply Number_toString_length; [exact E |].
    intros ->. discriminate E. }
  rewrite (padStart_long 3 "0" _ Hlen).
  split; [apply lookup_insert_eq |]. split; [exact Hlen |].
  intros key Hkey. apply lookup_insert_ne. congruence.
Qed.

(** Whatever the storage holds, the style number handed out is the text
    left in the storage, of three characters at least (the padding never
    adds anything), and only the counter's own key is written. *)
Theorem getNextStyleNumber_stored (localStorage : gmap string string) :
  let '(nextStyle, localStorage') := getNextStyleNumber localStorage in
  localStorage' !! "lastStyleNumber" = Some nextStyle
  /\ (3 <= String.length nextStyle)%nat
  /\ (forall key : string,
        key <> "lastStyleNumber"%string ->
        localStorage' !! key = localStorage !! key).
Proof. exact (getNextStyleNumber_text localStorage). Qed.

(** A stored text that is not a number spoils the counter for good: the
    call hands out and stores "NaN", and so does every call after it. *)
Theorem getNextStyleNumber_NaN (localStorage : gmap string string) (s : string) :
  localStorage !! "lastStyleNumber" = Some s ->
  s <> ""%string ->
  parseInt s = NaN ->
  getNextStyleNumber localStorage
  = ("NaN"%string, <["lastStyleNumber" := "NaN"%string]> localStorage)
  /\ getNextStyleNumber (<["lastStyleNumber" := "NaN"%string]> localStorage)
     = ("NaN"%string, <["lastStyleNumber" := "NaN"%string]> localStorage).
Proof.
  intros Hs Hne Hparse. split.
  - unfold getNextStyleNumber. rewrite Hs.
    apply truthy_true in Hne as Ht.
    unfold JSString.opt_truthy, JSString.opt_or, JSString.or_else.
    rewrite Ht, Hparse. reflexivity.
  - unfold getNextStyleNumber. rewrite lookup_insert_eq.
    cbn. now rewrite insert_insert_eq.
Qed.

Lemma getNextStyleNumber_NaN_witness :
  getNextStyleNumber {["lastStyleNumber" := "abc"%string]}
  = ("NaN"%string,
     <["lastStyleNumber" := "NaN"%string]> {["lastStyleNumber" := "abc"%string]})
  /\ getNextStyleNumber
       (<["lastStyleNumber" := "NaN"%string]> {["lastStyleNumber" := "abc"%string]})
     = ("NaN"%string,
        <["lastStyleNumber" := "NaN"%string]> {["lastStyleNumber" := "abc"%string]}).
Proof.
  apply (getNextStyleNumber_NaN {["lastStyleNumber" := "abc"%string]} "abc");
    [reflexivity | discriminate | reflexivity].
Defined.

End StyleCounter.

(** ** The dashboard *)

Section DashboardProperties.

Import JSNumber SKUHistory Dashboard.
Local Open Scope N_scope.

Lemma parseFloat_decimal (n : N) :
  n < 2 ^ 53 -> parseFloat (decimal n) = Finite false n 0.
Proof.
  intros Hn. unfold decimal. pose proof (digits_lt_10 n) as Hall.
  pose proof (digits_value_digits n) as Hv.
  destruct (digits n) as [| d ds] eqn:E; [now apply digits_nonempty in E |].
  rewrite parseFloat_digits, Hv by exact Hall. now apply binary64_exact.
Qed.

Lemma le_integers (a b : N) :
  le (Finite false a 0) (Finite false b 0) = (a <=? b).
Proof.
  cbn [le signed]. change (2 ^ 0) with 1. rewrite !N.mul_1_r.
  destruct (N.leb_spec a b); [apply Z.leb_le | apply Z.leb_gt]; lia.
Qed.

Lemma unbounded (x : number) :
  isNaN x = false -> ge x (Infinity true) = true /\ le x (Infinity false) = true.
Proof. destruct x as [| [] | neg num sh]; intros H; try discriminate; split; reflexivity. Qed.

Lemma filter_false {A : Type} (f : A -> bool) (l : list A) :
  (forall x, f x = false) -> List.filter f l = [].
Proof.
  intros H. induction l as [| x l IH]; [reflexivity |].
  cbn [List.filter]. now rewrite H.
Qed.

(** With no bound typed, the dashboard keeps exactly the records whose cost
    reads as a number; a record without a cost is never kept, whatever the
    bounds. *)
Theorem filteredData_no_bounds :
  (forall submissions,
      filteredData submissions "" ""
      = List.filter (fun item => negb (isNaN (costOf item))) submissions)
  /\ (forall minCost maxCost item,
        Submission.cost item = None -> inRange minCost maxCost item = false).
Proof.
  split.
  - intros submissions. unfold filteredData. apply filter_ext.
    intros item. unfold inRange. cbn [JSString.truthy].
    destruct (isNaN (costOf item)) eqn:E; [reflexivity |].
    now destruct (unbounded _ E) as [-> ->].
  - intros minCost maxCost item Hcost. unfold inRange, costOf.
    rewrite Hcost. reflexivity.
Qed.

(** On whole numbers below 2^53 the filter is the comparison of integers:
    a record of cost [c] is kept exactly when [c] is at least the lower
    bound and at most the upper bound, a bound left empty not counting. *)
Theorem inRange_integers (item : Submission.t) (c : N) (lo hi : option N) :
  Submission.cost item = Some (decimal c) ->
  c < 2 ^ 53 ->
  (forall n, lo = Some n \/ hi = Some n -> n < 2 ^ 53) ->
  inRange (bound_text lo) (bound_text hi) item
  = (match lo with Some n => n <=? c | None => true end)
    && (match hi with Some n => c <=? n | None => true end).
Proof.
  intros Hcost Hc Hbounds. unfold inRange, costOf.
  rewrite Hcost. change (default "undefined"%string (Some (decimal c))) with (decimal c).
  rewrite (parseFloat_decimal c Hc). cbn [isNaN].
  assert (Htext : forall n, JSString.truthy (decimal n) = true)
    by (intros n; apply truthy_true, decimal_nonempty).
  f_equal.
  - destruct lo as [n |]; cbn [bound_text]; [| reflexivity].
    rewrite Htext, parseFloat_decimal by (apply Hbounds; auto).
    unfold ge. apply le_integers.
  - destruct hi as [n |]; cbn [bound_text]; [| reflexivity].
    rewrite Htext, parseFloat_decimal by (apply Hbounds; auto).
    apply le_integers.
Qed.

Lemma inRange_integers_witness :
  inRange (bound_text (Some 1000)) (bound_text None) (costOnly (Some (decimal 1250)))
  = (1000 <=? 1250) && true.
Proof.
  apply (inRange_integers (costOnly (Some (decimal 1250))) 1250 (Some 1000) None).
  - reflexivity.
  - reflexivity.
  - intros n [H | H]; [injection H as <-; reflexivity | discriminate H].
Defined.

(** A bound that is typed but does not read as a number empties the
    dashboard: no record is kept. *)
Theorem filteredData_unreadable_bound (submissions : list Submission.t)
    (minCost maxCost : string) :
  (minCost <> ""%string /\ parseFloat minCost = NaN)
  \/ (maxCost <> ""%string /\ parseFloat maxCost = NaN) ->
  filteredData submissions minCost maxCost = [].
Proof.
  intros H. apply filter_false. intros item. unfold inRange.
  destruct (isNaN (costOf item)); [reflexivity |].
  destruct H as [[Hne Hnan] | [Hne Hnan]];
    apply truthy_true in Hne; rewrite Hne, Hnan.
  - unfold ge. destruct (costOf item) as [| [] | ? ? ?]; reflexivity.
  - apply andb_false_iff. right.
    destruct (costOf item) as [| [] | ? ? ?]; reflexivity.
Qed.

Lemma filteredData_unreadable_bound_witness :
  filteredData [ costOnly (Some "100"%string); costOnly (Some "250"%string) ] "-" "" = [].
Proof.
  apply (filteredData_unreadable_bound _ "-" "").
  left. split; [discriminate | reflexivity].
Defined.

Lemma totalValue_from (items : list Submission.t) (cs : list N) (a : N) :
  List.map Submission.cost items = List.map (fun c => Some (decimal c)) cs ->
  a + fold_right N.add 0 cs < 2 ^ 53 ->
  fold_left (fun acc curr => add acc (number_or (costOf curr) (of_Z 0)))
            items (Finite false a 0)
  = Finite false (a + fold_right N.add 0 cs) 0.
Proof.
  revert cs a. induction items as [| item items IH]; intros cs a Hmap Hsum.
  - destruct cs; [| discriminate Hmap]. cbn. now rewrite N.add_0_r.
  - destruct cs as [| c cs]; [discriminate Hmap |].
    cbn [List.map] in Hmap. injection Hmap as Hcost Hmap.
    cbn [fold_right] in *. cbn [fold_left].
    assert (Hitem : number_or (costOf item) (of_Z 0) = Finite false c 0).
    { unfold costOf. rewrite Hcost.
      change (default "undefined"%string (Some (decimal c))) with (decimal c).
      rewrite parseFloat_decimal by lia. unfold number_or. cbn [falsy].
      destruct (N.eqb_spec c 0) as [-> | _]; reflexivity. }
    rewrite Hitem. cbn [add Bool.eqb].
    change (2 ^ 0) with 1. change (2 ^ (0 + 0)) with 1. rewrite !N.mul_1_r.
    rewrite binary64_exact by lia.
    rewrite (IH cs (a + c)) by (assumption || lia).
    f_equal. lia.
Qed.

(** The total value is exact on whole numbers: when the costs of the
    records are the digits of integers whose sum is below 2^53, the total
    is that sum. *)
Theorem totalValue_integers (items : list Submission.t) (cs : list N) :
  List.map Submission.cost items = List.map (fun c => Some (decimal c)) cs ->
  fold_right N.add 0 cs < 2 ^ 53 ->
  totalValue items = Finite false (fold_right N.add 0 cs) 0.
Proof.
  intros Hmap Hsum. unfold totalValue. change (of_Z 0) with (Finite false 0 0) at 2.
  now rewrite (totalValue_from items cs 0 Hmap Hsum).
Qed.

Lemma totalValue_integers_witness :
  totalValue [ costOnly (Some (decimal 100)); costOnly (Some (decimal 250)) ]
  = Finite false (fold_right N.add 0 [100; 250]) 0.
Proof.
  apply (totalValue_integers
           [ costOnly (Some (decimal 100)); costOnly (Some (decimal 250)) ]
           [100; 250]); reflexivity.
Defined.

End DashboardProperties.

(** ** Validation, highlighting and submission *)

Section Submission.

Import GoogleSheetsService SKUGeneratorForm SKUHistory ComboboxForm.

Lemma getMissingFields_filter (formData : FormData) :
  getMissingFields formData
  = List.map snd (List.filter (fun field => String.eqb (fst field) "")
                              (required_fields formData)).
Proof.
  unfold getMissingFields, required_fields.
  rewrite !push_if_missing_app. cbn [List.filter fst].
  repeat match goal with
         | |- context [String.eqb ?x ""] => destruct (String.eqb x "")
         end; reflexivity.
Qed.

(** No field is reported missing exactly when the form is complete: the
    message listing the missing fields never comes with an empty list. *)
Theorem getMissingFields_nil_iff (formData : FormData) :
  getMissingFields formData = [] <->
  JSString.truthy (isFormComplete formData) = true.
Proof.
  rewrite getMissingFields_filter. unfold isFormComplete, required_fields.
  rewrite !truthy_and_then, !truthy_eqb. cbn [List.filter fst].
  repeat match goal with
         | |- context [String.eqb ?x ""] => destruct (String.eqb x "")
         end;
    split; intros H; first [reflexivity | discriminate H].
Qed.

(** After an attempt to submit, a field is highlighted exactly when it is
    empty, which is exactly when its name is in the list of missing fields;
    before any attempt nothing is highlighted. *)
Theorem getErrorClass_getMissingFields (formData : FormData) (field : FormKey) :
  (In (field_label field) (getMissingFields formData)
   <-> field_of formData field = "")
  /\ (getErrorClass true formData field <> ""
      <-> field_of formData field = "")
  /\ getErrorClass false formData field = "".
Proof.
  split; [| split; [| reflexivity]].
  - rewrite getMissingFields_filter, in_map_iff. split.
    + intros ([v name] & Hname & Hin). apply filter_In in Hin as [Hin Hempty].
      cbn [fst snd] in *. apply String.eqb_eq in Hempty. subst v.
      unfold required_fields in Hin. cbn [In] in Hin.
      destruct field; cbn [field_label field_of] in *;
        intuition congruence.
    + intros Hempty. exists (field_of formData field, field_label field).
      split; [reflexivity |]. apply filter_In. split.
      * unfold required_fields.
        destruct field; cbn [field_label field_of In];
          repeat (first [left; reflexivity | right]).
      * cbn [fst]. now rewrite Hempty.
  - unfold getErrorClass. cbn [andb]. rewrite truthy_eqb, negb_involutive.
    destruct (String.eqb_spec (field_of formData field) "") as [E | E].
    + split; [auto | discriminate].
    + split; [congruence | contradiction].
Qed.

Lemma payload_filled (sku : string) (formData : FormData) :
  JSString.truthy (isFormComplete formData) = true ->
  filled (payload sku formData).
Proof.
  intros H. apply isFormComplete_fields in H. unfold required_fields in H.
  split; [cbn; eauto |].
  repeat match goal with
         | H : Forall _ (_ :: _) |- _ => inversion H as [| ? ? ?E ?F]; subst; clear H
         end.
  cbn [fst] in *.
  repeat constructor; cbn; eexists; (split; [reflexivity |]);
    now apply String.eqb_neq.
Qed.

(** [handleSubmit] hands a record to [submitSKU] only when the form is
    complete and a user is logged in, once, with the identifier of the form
    and the user's name: so no record with an empty field is ever sent.
    Unless the submission succeeds, the form and the storage (the style
    counter) are left as they were. *)
Theorem handleSubmit_guarded (dropdownData : DropdownData)
    (currentUser : option User) (settled : Settled) (st : State) :
  let st' := handleSubmit dropdownData currentUser settled st in
  (Forall (fun call => filled (fst call)) (submitted st) ->
   Forall (fun call => filled (fst call)) (submitted st'))
  /\ (submitted st' = submitted st
      \/ (JSString.truthy (isFormComplete (formData st)) = true
          /\ exists user,
               currentUser = Some user
               /\ submitted st'
                  = (submitted st
                     ++ [ (payload (generateSKU_combobox dropdownData (formData st))
                                   (formData st),
                           username user) ])%list))
  /\ (settled <> Resolved \/ currentUser = None
      \/ JSString.truthy (isFormComplete (formData st)) = false ->
      formData st' = formData st /\ localStorage st' = localStorage st).
Proof.
  cbv zeta. unfold handleSubmit. cbn [formData hasTriedSubmit isSubmitting
    showSuccessModal generatedSKU localStorage toasts submitted].
  destruct (JSString.truthy (isFormComplete (formData st))) eqn:Hcomplete;
    cbn [negb].
  2:{ cbn. repeat split; auto. }
  destruct currentUser as [user |].
  2:{ cbn. repeat split; auto. }
  assert (Hfilled : forall calls,
             Forall (fun call : Submission.t * string => filled (fst call)) calls ->
             Forall (fun call : Submission.t * string => filled (fst call))
               (calls ++ [ (payload (generateSKU_combobox dropdownData (formData st))
                                    (formData st), username user) ])).
  { intros calls Hcalls. apply Forall_app. split; [exact Hcalls |].
    constructor; [now apply payload_filled | constructor]. }
  destruct settled; [destruct (getNextStyleNumber (localStorage st)) | |];
    cbn [formData localStorage submitted];
    (split; [apply Hfilled |]);
    (split; [right; split; [reflexivity | eauto] |]);
    intros [H | [H | H]]; congruence || auto.
Qed.

(** After a successful submission the modal shows the identifier that was
    sent, and the form starts afresh: all fields empty but the style, which
    is the number just stored in the counter; so the nine other fields are
    reported missing and a second submission sends nothing. *)
Theorem handleSubmit_success (dropdownData : DropdownData) (user : User)
    (st : State) :
  JSString.truthy (isFormComplete (formData st)) = true ->
  let st' := handleSubmit dropdownData (Some user) Resolved st in
  showSuccessModal st' = true
  /\ generatedSKU st' = generateSKU_combobox dropdownData (formData st)
  /\ hasTriedSubmit st' = false
  /\ localStorage st' !! "lastStyleNumber" = Some (style (formData st'))
  /\ getMissingFields (formData st')
     = [ "Product Group"; "Product Category"; "Color"; "Size"; "Location";
         "Fabric"; "Nature"; "Vendor Code"; "Cost" ]
  /\ (forall currentUser settled,
        submitted (handleSubmit dropdownData currentUser settled st')
        = submitted st').
Proof.
  intros Hcomplete st'.
  pose proof (getNextStyleNumber_text (localStorage st)) as Htext.
  destruct (getNextStyleNumber (localStorage st)) as [nextStyle storage] eqn:Hnext.
  destruct Htext as (Hstored & Hlen & _).
  assert (Hst' :
    st' = {| formData :=
               {| productGroup := ""; productCategory := ""; color := "";
                  size := ""; style := nextStyle; location := ""; fabric := "";
                  nature := ""; vendorCode := ""; cost := "" |};
             hasTriedSubmit := false;
             isSubmitting := false;
             showSuccessModal := true;
             generatedSKU := generateSKU_combobox dropdownData (formData st);
             localStorage := storage;
             toasts := toasts st;
             submitted :=
               (submitted st
                ++ [ (payload (generateSKU_combobox dropdownData (formData st))
                              (formData st), username user) ])%list |}).
  { subst st'. unfold handleSubmit.
    cbn [formData hasTriedSubmit isSubmitting showSuccessModal generatedSKU
         localStorage toasts submitted].
    rewrite Hcomplete. cbn [negb]. rewrite Hnext. reflexivity. }
  rewrite Hst'.
  cbn [formData hasTriedSubmit showSuccessModal generatedSKU localStorage
       submitted style].
  destruct nextStyle as [| c nextStyle]; [simpl in Hlen; lia |].
  repeat split; try reflexivity; try exact Hstored.
Qed.

Lemma handleSubmit_success_witness :
  let st :=
    {| formData :=
         {| productGroup := "Kurta Set"; productCategory := "men";
            color := "black"; size := "XL"; style := "101";
            location := "Delhi"; fabric := "cotton"; nature := "solid";
            vendorCode := "V00123"; cost := "1250" |};
       hasTriedSubmit := false; isSubmitting := false;
       showSuccessModal := false; generatedSKU := "";
       localStorage := {["lastStyleNumber" := "101"]};
       toasts := []; submitted := [] |} in
  let user := {| username := "asha"; name := "Asha"; role := "user" |} in
  let st' := handleSubmit noDropdownData (Some user) Resolved st in
  showSuccessModal st' = true
  /\ generatedSKU st' = generateSKU_combobox noDropdownData (formData st)
  /\ hasTriedSubmit st' = false
  /\ localStorage st' !! "lastStyleNumber" = Some (style (formData st'))
  /\ getMissingFields (formData st')
     = [ "Product Group"; "Product Category"; "Color"; "Size"; "Location";
         "Fabric"; "Nature"; "Vendor Code"; "Cost" ]
  /\ (forall currentUser settled,
        submitted (handleSubmit noDropdownData currentUser settled st')
        = submitted st').
Proof.
  intros st user. apply (handleSubmit_success noDropdownData user st).
  reflexivity.
Defined.

End Submission.

(** ** The history filter and the options, further *)

Section FilterAndOptions.

Import GoogleSheetsService SKUHistory.

Lemma filter_true {A : Type} (f : A -> bool) (l : list A) :
  (forall x, f x = true) -> List.filter f l = l.
Proof.
  intros H. induction l as [| x l IH]; [reflexivity |].
  cbn [List.filter]. now rewrite H, IH.
Qed.

(** With a blank query and no column filter every record is shown; and a
    query only narrows what the column filters alone leave. *)
Theorem filteredSubmissions_no_filter (submissions : list Submission.t) :
  (forall searchQuery,
      JSString.trim searchQuery = "" ->
      filteredSubmissions submissions searchQuery initialFilters = submissions)
  /\ (forall searchQuery filters,
        sublist (filteredSubmissions submissions searchQuery filters)
                (filteredSubmissions submissions "" filters)).
Proof.
  split.
  - intros searchQuery Hblank. unfold filteredSubmissions.
    rewrite Hblank. cbn [String.eqb negb].
    apply filter_true. reflexivity.
  - intros searchQuery filters. unfold filteredSubmissions.
    cbn [JSString.trim JSString.trimStart JSString.trimEnd String.eqb negb].
    destruct (negb (String.eqb (JSString.trim searchQuery) "")).
    + rewrite filter_filter.
      rewrite (filter_ext _ (fun sub => columnFilters filters sub
                                        && globalSearch (JSString.toLowerCase searchQuery) sub))
        by (intros sub; apply andb_comm).
      rewrite <- filter_filter. apply filter_sublist.
    + reflexivity.
Qed.

Lemma filteredSubmissions_no_filter_witness :
  filteredSubmissions [ Dashboard.costOnly (Some "100") ] "   " initialFilters
  = [ Dashboard.costOnly (Some "100") ].
Proof.
  apply (proj1 (filteredSubmissions_no_filter [ Dashboard.costOnly (Some "100") ])).
  reflexivity.
Defined.

Lemma transformItem_label (item : RawItem) :
  value (transformItem item) <> "" -> label (transformItem item) <> "".
Proof.
  destruct item as [s | v l a |]; cbn [transformItem value label]; [auto | | auto].
  destruct v as [[| cv v] |], l as [[| cl l] |]; cbn; congruence.
Qed.

(** Every option that [transformData] lets through has a non-empty value
    and a non-empty label; nothing is added (no more options than
    entries); and of a payload of plain strings, the non-empty ones come
    out in their order, each as its own value and label, without alias. *)
Theorem transformData_options :
  (forall items : RawItems,
      Forall (fun o => value o <> "" /\ label o <> "") (transformData items))
  /\ (forall items : list RawItem,
        (List.length (transformData (Items items)) <= List.length items)%nat)
  /\ (forall strings : list string,
        transformData (Items (List.map RawString strings))
        = List.map (fun s => {| value := s; label := s; alias := None |})
                   (List.filter (fun s => negb (String.eqb s "")) strings)).
Proof.
  split; [| split].
  - intros [| items]; [constructor |]. cbn [transformData].
    induction items as [| item items IH]; [constructor |].
    cbn [List.map List.filter].
    destruct (String.eqb_spec (value (transformItem item)) "") as [E | E];
      cbn [negb]; [exact IH |].
    constructor; [| exact IH]. split; [exact E | now apply transformItem_label].
  - intros items. cbn [transformData].
    rewrite <- (length_map transformItem items). apply filter_length_le.
  - intros strings. cbn [transformData].
    induction strings as [| s strings IH]; [reflexivity |].
    cbn [List.map List.filter transformItem value].
    destruct (String.eqb s ""); cbn [negb List.map]; now rewrite IH.
Qed.

End FilterAndOptions.
